(** * Smart valve backend: rules engine, serial link, broadcast hub, valve API

    A shallow embedding of the Python backend
    ([app/services/rules_engine.py], [app/serial_manager.py],
    [app/ws_manager.py], [app/api/valve.py]) together with the properties
    its specification states about it.

    Conventions of the embedding:
    - a Python [str] is a [string] (a sequence of bytes, UTF-8 for text
      outside ASCII);
    - a Python [float] is a rational [Q]: every finite float is one, and
      [<], [>] and [==] on finite floats and ints are the exact
      comparisons of their values (NaN and the infinities are left out);
    - a Python [dict] with string keys is a [gmap string _];
    - a raised exception is the [Raise] branch of [exc];
    - a mutable object is passed explicitly, before and after. *)

From Stdlib Require Import QArith Ascii String DecimalString.
From stdpp Require Import gmap strings list fin_maps fin_sets.

Local Open Scope string_scope.

(** ** Python values and the string operations the code calls *)

Module Py.

(** [bool] is a subclass of [int] in Python, so the three numeric kinds
    compare with one another by value. *)
Inductive num :=
| NBool (b : bool)
| NInt (z : Z)
| NFloat (q : Q).

(** What [json.loads] can produce. *)
#[warnings="-register-all"]
Inductive pyval :=
| PNone
| PNum (n : num)
| PStr (s : string)
| PList (l : list pyval)
| PDict (d : gmap string pyval).

Inductive exn := TypeError | AttributeError.

Inductive exc (A : Type) :=
| Ok (a : A)
| Raise (e : exn).
Arguments Ok {A} a.
Arguments Raise {A} e.

Definition bind {A B} (m : exc A) (k : A -> exc B) : exc B :=
  match m with
  | Ok a => k a
  | Raise e => Raise e
  end.

Notation "'let*' x := m 'in' k" := (bind m (fun x => k))
  (at level 10, x name, m at level 100, k at level 200).

Definition num_val (n : num) : Q :=
  match n with
  | NBool b => if b then 1%Q else 0%Q
  | NInt z => inject_Z z
  | NFloat q => q
  end.

(** [q1 < q2] on values, as a boolean. *)
Definition Qlt_bool (a b : Q) : bool := negb (Qle_bool b a).

(** [x == 1]: never raises; only a number of value one is equal to [1]. *)
Definition py_eq_1 (x : pyval) : bool :=
  match x with
  | PNum n => Qeq_bool (num_val n) 1
  | _ => false
  end.

(** [d.get(key, default)]. *)
Definition get (d : gmap string pyval) (key : string) (dflt : pyval) : pyval :=
  default dflt (d !! key).

(** [s.startswith(p)]. *)
Definition startswith (s p : string) : bool := String.prefix p s.

(** [needle in s] for two strings. *)
Fixpoint contains (needle s : string) : bool :=
  String.prefix needle s ||
  match s with
  | EmptyString => false
  | String _ s' => contains needle s'
  end.

Definition lower_ascii (c : ascii) : ascii :=
  let n := nat_of_ascii c in
  if (65 <=? n)%nat && (n <=? 90)%nat then ascii_of_nat (n + 32) else c.

(** [s.lower()]. On bytes outside ASCII it is the identity here; the
    code only searches the result for ASCII words without [k] and not
    ending in [i], which Unicode lowering can neither create nor break. *)
Fixpoint lower (s : string) : string :=
  match s with
  | EmptyString => EmptyString
  | String c s' => String (lower_ascii c) (lower s')
  end.

(** [sep.join(l)]. *)
Fixpoint join (sep : string) (l : list string) : string :=
  match l with
  | [] => ""
  | [x] => x
  | x :: l' => x ++ sep ++ join sep l'
  end.

(** [s.replace(old, new)] for a non-empty [old]: every occurrence, left
    to right, without overlap. [skip] counts the bytes of a match still
    to be dropped. *)
Fixpoint replace_from (old new : string) (skip : nat) (s : string) : string :=
  match s with
  | EmptyString => EmptyString
  | String c s' =>
      match skip with
      | S k => replace_from old new k s'
      | O =>
          if String.prefix old s
          then new ++ replace_from old new (String.length old - 1) s'
          else String c (replace_from old new 0 s')
      end
  end.

Definition replace (s old new : string) : string := replace_from old new 0 s.

(** White space as [str.strip] sees it, in UTF-8. One byte: the ASCII
    characters U+0009..U+000D, U+001C..U+001F and U+0020. *)
Definition is_space (c : ascii) : bool :=
  let n := nat_of_ascii c in
  ((9 <=? n)%nat && (n <=? 13)%nat) || ((28 <=? n)%nat && (n <=? 32)%nat).

(** Two bytes: U+0085 and U+00A0. *)
Definition is_space2 (c1 c2 : ascii) : bool :=
  let n2 := nat_of_ascii c2 in
  (nat_of_ascii c1 =? 194)%nat && ((n2 =? 133)%nat || (n2 =? 160)%nat).

(** Three bytes: U+1680, U+2000..U+200A, U+2028, U+2029, U+202F, U+205F
    and U+3000. *)
Definition is_space3 (c1 c2 c3 : ascii) : bool :=
  let n1 := nat_of_ascii c1 in
  let n2 := nat_of_ascii c2 in
  let n3 := nat_of_ascii c3 in
  ((n1 =? 225)%nat && (n2 =? 154)%nat && (n3 =? 128)%nat)
  || ((n1 =? 226)%nat && (n2 =? 128)%nat
      && (((128 <=? n3)%nat && (n3 <=? 138)%nat)
          || (n3 =? 168)%nat || (n3 =? 169)%nat || (n3 =? 175)%nat))
  || ((n1 =? 226)%nat && (n2 =? 129)%nat && (n3 =? 159)%nat)
  || ((n1 =? 227)%nat && (n2 =? 128)%nat && (n3 =? 128)%nat).

Fixpoint lstrip (s : string) : string :=
  match s with
  | EmptyString => EmptyString
  | String c1 s1 =>
      if is_space c1 then lstrip s1
      else
        match s1 with
        | EmptyString => s
        | String c2 s2 =>
            if is_space2 c1 c2 then lstrip s2
            else
              match s2 with
              | EmptyString => s
              | String c3 s3 => if is_space3 c1 c2 c3 then lstrip s3 else s
              end
        end
  end.

(** From the first character on, [s] is white space only. *)
Definition all_space (s : string) : bool := String.eqb (lstrip s) "".

Fixpoint rstrip (s : string) : string :=
  match s with
  | EmptyString => EmptyString
  | String c s' => if all_space s then EmptyString else String c (rstrip s')
  end.

(** [s.strip()]. *)
Definition strip (s : string) : string := rstrip (lstrip s).

(** A rendering of numbers for running the model: Python's for [bool]
    and [int], and for a float its decimal expansion, which is what
    Python prints for floats written with a few decimals (3.5, 6.0). *)
Definition Z_str (z : Z) : string := NilZero.string_of_int (Z.to_int z).

Definition digit (z : Z) : ascii := ascii_of_nat (48 + Z.to_nat z).

Fixpoint frac_digits (k : nat) (r d : Z) : string :=
  match k with
  | O => ""
  | S k' =>
      if (r =? 0)%Z then ""
      else String (digit (r * 10 / d)) (frac_digits k' (r * 10 mod d) d)
  end.

Definition float_str (q : Q) : string :=
  let n := Z.abs (Qnum q) in
  let d := Zpos (Qden q) in
  let f := frac_digits 17 (n mod d) d in
  (if (Qnum q <? 0)%Z then "-" else "") ++ Z_str (n / d) ++ "."
    ++ (if String.eqb f "" then "0" else f).

Definition str_num (n : num) : string :=
  match n with
  | NBool b => if b then "True" else "False"
  | NInt z => Z_str z
  | NFloat q => float_str q
  end.

(** Truthiness of an optional string: [None] and the empty string are
    false. *)
Definition truthy (r : option string) : bool :=
  match r with
  | None => false
  | Some s => negb (String.eqb s "")
  end.

(** Truthiness of a value: [None], a zero, and the empty string, list
    and dict are false. *)
Definition py_truthy (x : pyval) : bool :=
  match x with
  | PNone => false
  | PNum n => negb (Qeq_bool (num_val n) 0)
  | PStr s => negb (String.eqb s "")
  | PList l => match l with [] => false | _ => true end
  | PDict d => match map_to_list d with [] => false | _ => true end
  end.

End Py.

Import Py.

(** ** [app/services/rules_engine.py] *)

Module RulesEngine.

(** The attributes [__init__] sets. *)
Record t := {
  max_pressure : Q;
  critical_concentration : Q;
  min_src_concentration : Q;
  max_dst_concentration : Q
}.

(** [__init__]: the two environment variables, already read as floats,
    override the defaults 6.0 and 500.0; the other two are fixed. *)
Definition init (env_max_pressure env_critical : option Q) : t :=
  {| max_pressure := default (6 # 1) env_max_pressure;
     critical_concentration := default (500 # 1) env_critical;
     min_src_concentration := 10 # 1;
     max_dst_concentration := 400 # 1 |}.

Definition defaults : t := init None None.

Section WithFormat.

(** How an f-string renders a number ([format(x, "")]). *)
Variable fmt : num -> string.

(** One check of [validate_telemetry]: the comparison [x > limit] (which
    raises on a non-number) and, when it holds, the message built from
    the value and the limit. *)
Definition check_gt (x : pyval) (limit : Q) (msg : num -> string)
  : exc (list string) :=
  match x with
  | PNum n => Ok (if Qlt_bool limit (num_val n) then [msg n] else [])
  | _ => Raise TypeError
  end.

Definition pressure_msg (sensor : string) (limit : Q) (n : num) : string :=
  "Pressure sensor " ++ sensor ++ " exceeds limit: " ++ fmt n ++ " > "
    ++ fmt (NFloat limit) ++ " bar".

Definition concentration_msg (side : string) (limit : Q) (n : num) : string :=
  side ++ " concentration critical: " ++ fmt n ++ " > "
    ++ fmt (NFloat limit) ++ " units".

Definition validate_telemetry (self : t) (telemetry : gmap string pyval)
  : exc (bool * list string) :=
  let violations : list string := [] in
  let p1 := get telemetry "p1" (PNum (NInt 0)) in
  let p2 := get telemetry "p2" (PNum (NInt 0)) in
  let* v1 := check_gt p1 (max_pressure self)
                (pressure_msg "1" (max_pressure self)) in
  let violations := (violations ++ v1)%list in
  let* v2 := check_gt p2 (max_pressure self)
                (pressure_msg "2" (max_pressure self)) in
  let violations := (violations ++ v2)%list in
  let c_src := get telemetry "c_src" (PNum (NInt 0)) in
  let c_dst := get telemetry "c_dst" (PNum (NInt 0)) in
  let* v3 := check_gt c_src (critical_concentration self)
                (concentration_msg "Source" (critical_concentration self)) in
  let violations := (violations ++ v3)%list in
  let* v4 := check_gt c_dst (critical_concentration self)
                (concentration_msg "Destination" (critical_concentration self)) in
  let violations := (violations ++ v4)%list in
  let is_safe := (length violations =? 0)%nat in
  Ok (is_safe, violations).

Definition can_open_valve (self : t) (telemetry : gmap string pyval)
  : exc (bool * string) :=
  if py_eq_1 (get telemetry "em" (PNum (NInt 0))) then
    Ok (false, "System in emergency mode")
  else
    let* r := validate_telemetry self telemetry in
    let '(is_safe, violations) := r in
    if negb is_safe then
      Ok (false, "Safety violations: " ++ join "; " violations)
    else
      let c_src := get telemetry "c_src" (PNum (NInt 0)) in
      match c_src with
      | PNum n_src =>
          if Qlt_bool (num_val n_src) (min_src_concentration self) then
            Ok (false, "Source concentration too low: " ++ fmt n_src ++ " < "
                         ++ fmt (NFloat (min_src_concentration self)))
          else
            let c_dst := get telemetry "c_dst" (PNum (NInt 0)) in
            match c_dst with
            | PNum n_dst =>
                if Qlt_bool (max_dst_concentration self) (num_val n_dst) then
                  Ok (false, "Destination concentration too high: "
                               ++ fmt n_dst ++ " > "
                               ++ fmt (NFloat (max_dst_concentration self)))
                else Ok (true, "All checks passed")
            | _ => Raise TypeError
            end
      | _ => Raise TypeError
      end.

End WithFormat.

Inductive priority := CRITICAL | HIGH.

Definition critical_keywords : list string :=
  ["pressure"; "critical"; "emergency"].

(** The [for] loop of [get_alert_priority]: the first keyword found in
    the lowered text decides. *)
Fixpoint priority_loop (keywords : list string) (violation_type : string)
  : priority :=
  match keywords with
  | [] => HIGH
  | keyword :: rest =>
      if contains (lower keyword) (lower violation_type) then CRITICAL
      else priority_loop rest violation_type
  end.

Definition get_alert_priority (violation_type : string) : priority :=
  priority_loop critical_keywords violation_type.

End RulesEngine.

(** ** [app/serial_manager.py] *)

Module SerialManager.

(** The [serial.Serial] object: whether the port is open and the lines
    written to it so far, oldest first. *)
Record Serial := {
  is_open : bool;
  written : list string
}.

Record t := {
  port : string;
  serial_conn : option Serial
}.

(** What one turn of the waiting loop of [send_command] finds on the
    port: nothing waiting ([in_waiting] is 0), a line (the text
    [readline().decode(...).strip()] evaluates to, which is empty for a
    blank line), or an I/O error raised by the port. *)
Inductive poll :=
| Idle
| Line (response : string)
| Fault.

(** The device's side of one command: whether [write] succeeds, and what
    the loop finds turn after turn until the timeout has elapsed. *)
Record exchange := {
  write_ok : bool;
  polls : list poll
}.

Definition is_connected (self : t) : bool :=
  match serial_conn self with
  | Some conn => is_open conn
  | None => false
  end.

(** The [while] loop of [send_command]. It ends by a [return] from
    inside, by an exception (caught by the handler around it, which
    returns [None]), or when the time is up, with [lines_received] then
    deciding. *)
Fixpoint wait_response (turns : list poll) (lines_received : list string)
  : option string :=
  match turns with
  | [] => if decide (lines_received = []) then None else last lines_received
  | Idle :: turns' => wait_response turns' lines_received
  | Line response :: turns' =>
      if negb (String.eqb response "") then
        let lines_received := (lines_received ++ [response])%list in
        if negb (startswith response "COMMAND_RECEIVED:") then Some response
        else wait_response turns' lines_received
      else wait_response turns' lines_received
  | Fault :: _ => None
  end.

Definition send_command (self : t) (command : string) (device : exchange)
  : option string * t :=
  match serial_conn self with
  | Some conn =>
      if is_open conn then
        if write_ok device then
          let cmd_line := command ++ String "010" "" in
          let conn := {| is_open := is_open conn;
                         written := (written conn ++ [cmd_line])%list |} in
          (wait_response (polls device) [],
           {| port := port self; serial_conn := Some conn |})
        else (None, self)
      else (None, self)
  | None => (None, self)
  end.

Section WithJson.

(** [json.loads]: the value, or [None] when it raises. *)
Variable json_loads : string -> option pyval.
(** [int(time.time())]. *)
Variable now : Z.

(** ['t' not in data]. *)
Definition t_not_in (data : pyval) : exc bool :=
  match data with
  | PDict d => Ok (bool_decide (d !! "t" = None))
  | PStr s => Ok (negb (contains "t" s))
  | PList l =>
      Ok (negb (existsb (fun x => match x with
                                  | PStr s => String.eqb s "t"
                                  | _ => false
                                  end) l))
  | PNone | PNum _ => Raise TypeError
  end.

(** [data['t'] = v]: only a dict takes a string key. *)
Definition set_t (data : pyval) (v : pyval) : exc pyval :=
  match data with
  | PDict d => Ok (PDict (<["t" := v]> d))
  | _ => Raise TypeError
  end.

(** The text handed to [json.loads]. *)
Definition json_str (line : string) : string :=
  strip (replace line "TELEMETRY:" "").

Definition parse_telemetry (line : string) : option pyval :=
  if negb (startswith line "TELEMETRY:") then None
  else
    match json_loads (json_str line) with
    | None => None
    | Some data =>
        match t_not_in data with
        | Raise _ => None
        | Ok true =>
            match set_t data (PNum (NInt now)) with
            | Ok data' => Some data'
            | Raise _ => None
            end
        | Ok false => Some data
        end
    end.

End WithJson.

(** [disconnect]: an open port is closed and forgotten; anything else is
    left as it is. *)
Definition disconnect (self : t) : t :=
  match serial_conn self with
  | Some conn =>
      if is_open conn then {| port := port self; serial_conn := None |}
      else self
  | None => self
  end.

(** An entry of [serial.tools.list_ports.comports()]; [vid] and [pid] are
    [None] for a port that is not a USB device. *)
Record ListPortInfo := {
  device : string;
  vid : option Z;
  pid : option Z
}.

Definition arduino_ids : list (Z * option Z) :=
  [(0x2341, None); (0x2A03, None); (0x1A86, Some 0x7523)]%Z.

(** [port.vid == vid and (pid is None or port.pid == pid)]. *)
Definition id_matches (p : ListPortInfo) (id : Z * option Z) : bool :=
  bool_decide (vid p = Some (fst id))
  && match snd id with
     | None => true
     | Some x => bool_decide (pid p = Some x)
     end.

(** The two nested loops of [detect_arduino]. *)
Fixpoint scan_ports (ports : list ListPortInfo) : option string :=
  match ports with
  | [] => None
  | p :: rest =>
      if existsb (id_matches p) arduino_ids then Some (device p)
      else scan_ports rest
  end.

Definition detect_arduino (self : t) (ports : list ListPortInfo)
  : option string :=
  match scan_ports ports with
  | Some dev => Some dev
  | None =>
      if negb (String.eqb (port self) "")
         && negb (String.eqb (port self) "AUTO")
      then Some (port self)
      else None
  end.

(** What the surroundings decide during [connect]: the variable
    AUTO_DETECT_ARDUINO, the ports listed, whether [serial.Serial(...)]
    and [reset_input_buffer()] return or raise, and the device's side of
    the three commands of the handshake. *)
Record link := {
  auto_detect : option string;
  comports : list ListPortInfo;
  open_ok : bool;
  flush_ok : bool;
  ping : exchange;
  test_mode_on : exchange;
  reset_emergency : exchange
}.

Definition connect (self : t) (env : link) : bool * t :=
  let self :=
    if String.eqb (lower (default "true" (auto_detect env))) "true" then
      match detect_arduino self (comports env) with
      | Some detected_port =>
          if negb (String.eqb detected_port "")
          then {| port := detected_port; serial_conn := serial_conn self |}
          else self
      | None => self
      end
    else self in
  if String.eqb (port self) "" then (false, self)
  else if negb (open_ok env) then
    (false, {| port := port self; serial_conn := None |})
  else
    let self := {| port := port self;
                   serial_conn := Some {| is_open := true; written := [] |} |} in
    if negb (flush_ok env) then
      (false, {| port := port self; serial_conn := None |})
    else
      let '(response, self) := send_command self "PING" (ping env) in
      let '(test_mode_response, self) :=
        send_command self "TEST_MODE_ON" (test_mode_on env) in
      let '(reset_response, self) :=
        send_command self "RESET_EMERGENCY" (reset_emergency env) in
      (true, self).

(** What the read loop does with a line: it calls the telemetry callback
    or logs the line as a message of the device. *)
Inductive loop_event :=
| Dispatched (telemetry_data : pyval) (line : string)
| Informed (line : string).

(** One turn of [read_loop]: the surroundings of a reconnection (used
    when the link is down), the clock, and what the port shows; [Fault]
    is a [serial.SerialException]. *)
Record iteration := {
  reconnect : link;
  clock : Z;
  turn : poll
}.

Section ReadLoop.

Variable json_loads : string -> option pyval.
(** Whether [telemetry_callback] is set. *)
Variable has_callback : bool.

(** The body of [read_loop] for a line read from the port. *)
Definition read_line (line : string) (now : Z) : list loop_event :=
  if String.eqb line "" then []
  else if startswith line "TELEMETRY:" then
    match parse_telemetry json_loads now line with
    | Some telemetry_data =>
        if py_truthy telemetry_data && has_callback
        then [Dispatched telemetry_data line]
        else []
    | None => []
    end
  else [Informed line].

Definition read_iteration (st : t * list loop_event) (it : iteration)
  : t * list loop_event :=
  let '(self, events) := st in
  let '(ready, self) :=
    if negb (is_connected self) then connect self (reconnect it)
    else (true, self) in
  if negb ready then (self, events)
  else
    match turn it with
    | Idle => (self, events)
    | Line line => (self, (events ++ read_line line (clock it))%list)
    | Fault => (disconnect self, events)
    end.

(** [read_loop] over the turns taken while [running] holds. *)
Definition read_loop (self : t) (turns : list iteration)
  : t * list loop_event :=
  foldl read_iteration (self, []) turns.

End ReadLoop.

End SerialManager.

(** ** [app/ws_manager.py] *)

Module ConnectionManager.

(** A WebSocket is known by a number; a message is a dict. *)
Record t := {
  active_connections : gset nat
}.

Section WithSockets.

(** [await connection.send_json(message)]: [true] when it returns,
    [false] when it raises. *)
Variable send_json : nat -> gmap string pyval -> bool.

(** The [for] loop of [broadcast] over the copied set, with the set of
    failed sockets and the log of deliveries made so far. *)
Fixpoint sweep (connections : list nat) (message : gmap string pyval)
    (disconnected : gset nat) (sent : list (nat * gmap string pyval))
  : gset nat * list (nat * gmap string pyval) :=
  match connections with
  | [] => (disconnected, sent)
  | connection :: rest =>
      if send_json connection message
      then sweep rest message disconnected
             (sent ++ [(connection, message)])%list
      else sweep rest message ({[connection]} ∪ disconnected) sent
  end.

(** [broadcast] returns the manager afterwards and the deliveries made. *)
Definition broadcast (self : t) (message : gmap string pyval)
  : t * list (nat * gmap string pyval) :=
  if decide (active_connections self = ∅) then (self, [])
  else
    let connections := active_connections self in
    let '(disconnected, sent) := sweep (elements connections) message ∅ [] in
    if decide (disconnected = ∅) then (self, sent)
    else ({| active_connections := active_connections self ∖ disconnected |},
          sent).

Definition broadcast_valve_event (self : t) (event_data : gmap string pyval)
  : t * list (nat * gmap string pyval) :=
  let message : gmap string pyval :=
    <["type" := PStr "valve_event"]> (<["data" := PDict event_data]> ∅) in
  broadcast self message.

End WithSockets.

Definition connect (self : t) (websocket : nat) : t :=
  {| active_connections := {[websocket]} ∪ active_connections self |}.

Definition disconnect (self : t) (websocket : nat) : t :=
  {| active_connections := active_connections self ∖ {[websocket]} |}.

Definition get_connection_count (self : t) : nat :=
  size (active_connections self).

Section Unicast.

Variable send_json : nat -> gmap string pyval -> bool.

(** [send_personal_message]: a failed delivery unregisters the socket. *)
Definition send_personal_message (self : t) (message : gmap string pyval)
    (websocket : nat) : t * list (nat * gmap string pyval) :=
  if send_json websocket message then (self, [(websocket, message)])
  else (disconnect self websocket, []).

Definition broadcast_telemetry (self : t) (telemetry_data : gmap string pyval)
  : t * list (nat * gmap string pyval) :=
  let message : gmap string pyval :=
    <["type" := PStr "telemetry"]> (<["data" := PDict telemetry_data]> ∅) in
  broadcast send_json self message.

Definition broadcast_alert (self : t) (alert_data : gmap string pyval)
  : t * list (nat * gmap string pyval) :=
  let message : gmap string pyval :=
    <["type" := PStr "alert"]> (<["data" := PDict alert_data]> ∅) in
  broadcast send_json self message.

End Unicast.

End ConnectionManager.

(** ** [app/services/alerts.py] *)

Module AlertService.

Inductive AlertPriority := LOW | MEDIUM | HIGH | CRITICAL.

Definition value (p : AlertPriority) : string :=
  match p with
  | LOW => "LOW"
  | MEDIUM => "MEDIUM"
  | HIGH => "HIGH"
  | CRITICAL => "CRITICAL"
  end.

(** What a caller passes as [priority]: a member of the enumeration, or
    a plain [str], which has no attribute [value]. *)
Inductive priority_arg :=
| Member (p : AlertPriority)
| Plain (s : string).

Record SystemAlert := {
  alert_ts_utc : Z;
  alert_type : string;
  alert_message : string;
  alert_priority : string;
  acknowledged : bool
}.

(** [create_alert] on the table of alerts: [priority.value] is evaluated
    while the row is built, before anything is added. *)
Definition create_alert (db : list SystemAlert) (now : Z)
    (type message : string) (priority : priority_arg)
  : exc (list SystemAlert) :=
  match priority with
  | Member p =>
      Ok (db ++ [{| alert_ts_utc := now; alert_type := type;
                    alert_message := message; alert_priority := value p;
                    acknowledged := false |}])%list
  | Plain _ => Raise AttributeError
  end.

(** The metadata [create_emergency_alert] attaches; the telemetry is
    added when the dict is not empty. *)
Definition emergency_metadata (violation_type violation_details : string)
    (telemetry_data : gmap string pyval) : gmap string pyval :=
  let metadata : gmap string pyval :=
    <["violation_type" := PStr violation_type]>
      (<["details" := PStr violation_details]> ∅) in
  if py_truthy (PDict telemetry_data)
  then <["telemetry" := PDict telemetry_data]> metadata
  else metadata.

(** [create_emergency_alert] on the table of alerts (the rows of the
    model carry no metadata column). *)
Definition create_emergency_alert (db : list SystemAlert) (now : Z)
    (violation_type violation_details : string)
  : exc (list SystemAlert) :=
  let message :=
    "EMERGENCY: " ++ violation_type ++ " - " ++ violation_details in
  create_alert db now "EMERGENCY" message (Member CRITICAL).

End AlertService.

(** ** [app/api/valve.py] *)

Module Valve.

Record User := { username : string }.

Record ValveOperation := {
  ts_utc : Z;
  command : string;
  issuer_user : string;
  result : string;
  op_message : string
}.

Inductive ValveState := OPEN | CLOSED.

Record ValveCommandResponse := {
  success : bool;
  message : string;
  valve_state : option ValveState
}.

(** How an endpoint ends: it returns a response, raises [HTTPException],
    or lets another exception escape. *)
Inductive outcome :=
| Return (r : ValveCommandResponse)
| HTTPException (status_code : nat) (detail : string)
| Escapes (e : exn).

(** The objects the endpoints share: the serial manager, the hub, the
    two tables they write, and the messages delivered to sockets. *)
Record world := {
  serial_manager : SerialManager.t;
  ws_manager : ConnectionManager.t;
  valve_operations : list ValveOperation;
  system_alerts : list AlertService.SystemAlert;
  delivered : list (nat * gmap string pyval)
}.

(** What the surroundings decide during one request: the clock, which
    sockets accept a message, and what the device does with a command. *)
Record env := {
  now : Z;
  send_json : nat -> gmap string pyval -> bool;
  device : SerialManager.exchange
}.

Definition valve_event (e : env) (command : string) (user : User)
    (result message : string) : gmap string pyval :=
  <["command" := PStr command]>
  (<["user" := PStr (username user)]>
  (<["result" := PStr result]>
  (<["message" := PStr message]>
  (<["timestamp" := PNum (NInt (now e))]> ∅)))).

Definition log_operation (w : world) (e : env) (command : string)
    (user : User) (result message : string) : world :=
  let operation := {| ts_utc := now e; command := command;
                      issuer_user := username user; result := result;
                      op_message := message |} in
  let '(ws, sent) :=
    ConnectionManager.broadcast_valve_event (send_json e) (ws_manager w)
      (valve_event e command user result message) in
  {| serial_manager := serial_manager w;
     ws_manager := ws;
     valve_operations := (valve_operations w ++ [operation])%list;
     system_alerts := system_alerts w;
     delivered := (delivered w ++ sent)%list |}.

(** [serial_manager.send_command(command)] on the shared manager. *)
Definition send (w : world) (e : env) (command : string)
  : option string * world :=
  let '(response, sm) :=
    SerialManager.send_command (serial_manager w) command (device e) in
  (response,
   {| serial_manager := sm;
      ws_manager := ws_manager w;
      valve_operations := valve_operations w;
      system_alerts := system_alerts w;
      delivered := delivered w |}).

Definition respond (ok : bool) (msg : string) (st : option ValveState)
  : outcome :=
  Return {| success := ok; message := msg; valve_state := st |}.

Definition open_valve (w : world) (e : env) (current_user : User)
  : outcome * world :=
  if negb (SerialManager.is_connected (serial_manager w)) then
    (HTTPException 503 "Arduino not connected",
     log_operation w e "OPEN" current_user "FAILED" "Arduino not connected")
  else
    let '(response, w) := send w e "OPEN" in
    match response with
    | None =>
        (HTTPException 503 "No response from Arduino",
         log_operation w e "OPEN" current_user "FAILED"
           "No response from Arduino")
    | Some response =>
        if String.eqb response "" then
          (HTTPException 503 "No response from Arduino",
           log_operation w e "OPEN" current_user "FAILED"
             "No response from Arduino")
        else if contains "VALVE_OPENED" response then
          (respond true "Valve opened successfully" (Some OPEN),
           log_operation w e "OPEN" current_user "SUCCESS"
             "Valve opened successfully")
        else if contains "ERROR" response
                || contains "emergency" (lower response) then
          (respond false response None,
           log_operation w e "OPEN" current_user "REJECTED" response)
        else
          (respond false ("Unexpected response: " ++ response) None,
           log_operation w e "OPEN" current_user "UNKNOWN" response)
    end.

Definition close_valve (w : world) (e : env) (current_user : User)
  : outcome * world :=
  if negb (SerialManager.is_connected (serial_manager w)) then
    (HTTPException 503 "Arduino not connected",
     log_operation w e "CLOSE" current_user "FAILED" "Arduino not connected")
  else
    let '(response, w) := send w e "CLOSE" in
    match response with
    | None =>
        (HTTPException 503 "No response from Arduino",
         log_operation w e "CLOSE" current_user "FAILED"
           "No response from Arduino")
    | Some response =>
        if String.eqb response "" then
          (HTTPException 503 "No response from Arduino",
           log_operation w e "CLOSE" current_user "FAILED"
             "No response from Arduino")
        else if contains "VALVE_CLOSED" response
                || contains "ALREADY_CLOSED" response then
          (respond true "Valve closed successfully" (Some CLOSED),
           log_operation w e "CLOSE" current_user "SUCCESS"
             "Valve closed successfully")
        else
          (respond false ("Unexpected response: " ++ response) None,
           log_operation w e "CLOSE" current_user "UNKNOWN" response)
    end.

Definition force_open_valve (w : world) (e : env) (current_user : User)
  : outcome * world :=
  if negb (SerialManager.is_connected (serial_manager w)) then
    (HTTPException 503 "Arduino not connected",
     log_operation w e "FORCE_OPEN" current_user "FAILED"
       "Arduino not connected")
  else
    let '(response, w) := send w e "FORCE_OPEN" in
    match response with
    | None =>
        (HTTPException 503 "No response from Arduino",
         log_operation w e "FORCE_OPEN" current_user "FAILED"
           "No response from Arduino")
    | Some response =>
        if String.eqb response "" then
          (HTTPException 503 "No response from Arduino",
           log_operation w e "FORCE_OPEN" current_user "FAILED"
             "No response from Arduino")
        else if contains "VALVE_OPENED" response then
          let w := log_operation w e "FORCE_OPEN" current_user "SUCCESS"
                     "Valve force-opened" in
          match AlertService.create_alert (system_alerts w) (now e)
                  "FORCE_OPEN"
                  ("Valve force-opened by admin " ++ username current_user)
                  (AlertService.Plain "HIGH") with
          | Raise x => (Escapes x, w)
          | Ok alerts =>
              (respond true "Valve force-opened (bypassed safety)" (Some OPEN),
               {| serial_manager := serial_manager w;
                  ws_manager := ws_manager w;
                  valve_operations := valve_operations w;
                  system_alerts := alerts;
                  delivered := delivered w |})
          end
        else
          (respond false response None,
           log_operation w e "FORCE_OPEN" current_user "FAILED" response)
    end.

Definition reset_emergency (w : world) (e : env) (current_user : User)
  : outcome * world :=
  if negb (SerialManager.is_connected (serial_manager w)) then
    (HTTPException 503 "Arduino not connected",
     log_operation w e "RESET_EMERGENCY" current_user "FAILED"
       "Arduino not connected")
  else
    let '(response, w) := send w e "RESET_EMERGENCY" in
    match response with
    | None =>
        (HTTPException 503 "No response from Arduino",
         log_operation w e "RESET_EMERGENCY" current_user "FAILED"
           "No response from Arduino")
    | Some response =>
        if String.eqb response "" then
          (HTTPException 503 "No response from Arduino",
           log_operation w e "RESET_EMERGENCY" current_user "FAILED"
             "No response from Arduino")
        else if contains "reset successfully" (lower response)
                || contains "EVENT" response then
          (respond true "Emergency mode reset successfully" None,
           log_operation w e "RESET_EMERGENCY" current_user "SUCCESS"
             "Emergency mode reset")
        else
          (respond false response None,
           log_operation w e "RESET_EMERGENCY" current_user "UNKNOWN"
             response)
    end.

(** The two test-mode endpoints differ in the command and the texts. *)
Definition test_mode (command note reply : string)
    (w : world) (e : env) (current_user : User) : outcome * world :=
  if negb (SerialManager.is_connected (serial_manager w)) then
    (HTTPException 503 "Arduino not connected", w)
  else
    let '(response, w) := send w e command in
    if negb (truthy response) then
      (HTTPException 503 "No response from Arduino", w)
    else
      (respond true reply None,
       log_operation w e command current_user "SUCCESS" note).

Definition enable_test_mode : world -> env -> User -> outcome * world :=
  test_mode "TEST_MODE_ON" "Test mode enabled"
    "Test mode enabled - using mock sensor values".

Definition disable_test_mode : world -> env -> User -> outcome * world :=
  test_mode "TEST_MODE_OFF" "Test mode disabled"
    "Test mode disabled - using real sensor values".

(** The six command-issuing operations of the API. *)
Inductive operation :=
| OpOpen
| OpClose
| OpForceOpen
| OpResetEmergency
| OpTestModeOn
| OpTestModeOff.

Definition run (op : operation) : world -> env -> User -> outcome * world :=
  match op with
  | OpOpen => open_valve
  | OpClose => close_valve
  | OpForceOpen => force_open_valve
  | OpResetEmergency => reset_emergency
  | OpTestModeOn => enable_test_mode
  | OpTestModeOff => disable_test_mode
  end.

End Valve.

(** ** [app/main.py] *)

Module Main.

(** A row of the telemetry table, as [handle_telemetry] fills it. *)
Record Telemetry := {
  ts_utc : pyval;
  valve_state : pyval;
  p1 : pyval;
  p2 : pyval;
  c_src : pyval;
  c_dst : pyval;
  em : pyval;
  raw_line : string
}.

Record world := {
  ws_manager : ConnectionManager.t;
  telemetry : list Telemetry;
  system_alerts : list AlertService.SystemAlert;
  delivered : list (nat * gmap string pyval)
}.

(** What the surroundings decide during one call: the clock, which
    sockets accept a message, whether [db.commit()] takes the row or
    raises (the columns of the table are not nullable, and the database
    has its own view of the types), and the rules engine with the
    rendering of its numbers. *)
Record env := {
  now : Z;
  send_json : nat -> gmap string pyval -> bool;
  commits : Telemetry -> bool;
  fmt : num -> string;
  rules_engine : RulesEngine.t
}.

(** The row built from the record, with the defaults of the handler. *)
Definition telemetry_row (e : env) (d : gmap string pyval)
    (raw_line : string) : Telemetry :=
  {| ts_utc := get d "t" (PNum (NInt (now e)));
     valve_state := get d "valve" (PStr "CLOSED");
     p1 := get d "p1" (PNum (NFloat 0));
     p2 := get d "p2" (PNum (NFloat 0));
     c_src := get d "c_src" (PNum (NFloat 0));
     c_dst := get d "c_dst" (PNum (NFloat 0));
     em := get d "em" (PNum (NInt 0));
     raw_line := raw_line |}.

(** The [for] loop that raises one alert per violation. *)
Fixpoint raise_alerts (db : list AlertService.SystemAlert) (now : Z)
    (violations : list string) : exc (list AlertService.SystemAlert) :=
  match violations with
  | [] => Ok db
  | violation :: rest =>
      let* db := AlertService.create_emergency_alert db now
                   "SAFETY_VIOLATION" violation in
      raise_alerts db now rest
  end.

Definition alert_data (e : env) (violations : list string)
    (telemetry_data : gmap string pyval) : gmap string pyval :=
  <["type" := PStr "SAFETY_VIOLATION"]>
  (<["violations" := PList (PStr <$> violations)]>
  (<["telemetry" := PDict telemetry_data]>
  (<["timestamp" := PNum (NInt (now e))]> ∅))).

(** [handle_telemetry]. A value that is not a dict has no [get]: the
    [AttributeError] is caught by the outer handler before anything is
    done. When [db.commit()] raises, the session is closed with nothing
    stored and the outer handler ends the call. An exception of the
    rules engine (a [TypeError]) is caught there as well, after the row
    was committed and before the telemetry is broadcast. *)
Definition handle_telemetry (w : world) (e : env) (telemetry_data : pyval)
    (raw_line : string) : world :=
  match telemetry_data with
  | PDict d =>
      let telemetry_record := telemetry_row e d raw_line in
      if negb (commits e telemetry_record) then w
      else
      let w := {| ws_manager := ws_manager w;
                  telemetry := (telemetry w ++ [telemetry_record])%list;
                  system_alerts := system_alerts w;
                  delivered := delivered w |} in
      match RulesEngine.validate_telemetry (fmt e) (rules_engine e) d with
      | Raise _ => w
      | Ok (is_safe, violations) =>
          let checked :=
            if negb is_safe then
              match raise_alerts (system_alerts w) (now e) violations with
              | Raise x => Raise x
              | Ok alerts =>
                  let '(ws, sent) :=
                    ConnectionManager.broadcast_alert (send_json e)
                      (ws_manager w) (alert_data e violations d) in
                  Ok {| ws_manager := ws;
                        telemetry := telemetry w;
                        system_alerts := alerts;
                        delivered := (delivered w ++ sent)%list |}
              end
            else Ok w in
          match checked with
          | Raise _ => w
          | Ok w =>
              let '(ws, sent) :=
                ConnectionManager.broadcast_telemetry (send_json e)
                  (ws_manager w) d in
              {| ws_manager := ws;
                 telemetry := telemetry w;
                 system_alerts := system_alerts w;
                 delivered := (delivered w ++ sent)%list |}
          end
      end
  | _ => w
  end.

End Main.

(** * Vocabulary of the properties *)

(** [needle] occurs in [s]. *)
Definition occurs_in (needle s : string) : Prop :=
  exists pre post, s = pre ++ needle ++ post.

(** [needle] occurs in [s] up to the case of ASCII letters. *)
Definition occurs_in_nocase (needle s : string) : Prop :=
  exists pre mid post, s = pre ++ mid ++ post /\ lower mid = lower needle.

(** The value the rules engine reads for a metric: the entry of the
    sample, or the integer 0 when the sample has none. *)
Definition reading (telemetry : gmap string pyval) (key : string) : pyval :=
  get telemetry key (PNum (NInt 0)).

(** A number is above, or below, a threshold. *)
Definition exceeds (n : num) (limit : Q) : Prop := (limit < num_val n)%Q.
Definition below (n : num) (limit : Q) : Prop := (num_val n < limit)%Q.

#[global] Instance Qlt_decision (a b : Q) : Decision (a < b)%Q :=
  match Qlt_le_dec a b with
  | left H => left H
  | right H => right (Qle_not_lt _ _ H)
  end.

#[global] Instance exceeds_decision n limit : Decision (exceeds n limit) :=
  Qlt_decision _ _.

(** The violation a check contributes: its message when the check is
    breached, nothing otherwise. *)
Definition entry (P : Prop) `{Decision P} (msg : string) : list string :=
  if decide P then [msg] else [].

(** How many violations name the given pressure sensor. *)
Definition naming (sensor : string) (violations : list string) : nat :=
  length (List.filter
            (fun v => startswith v ("Pressure sensor " ++ sensor)) violations).

(** The sample carries an emergency flag equal to 1. *)
Definition emergency (telemetry : gmap string pyval) : Prop :=
  exists n, telemetry !! "em" = Some (PNum n) /\ (num_val n == 1)%Q.

(** The sample of the specification's examples: p1 = 3.5, p2 = 3.2,
    c_src = 150.0, c_dst = 250.0, em = 0. *)
Definition nominal_sample : gmap string pyval :=
  <["p1" := PNum (NFloat (35 # 10))]>
  (<["p2" := PNum (NFloat (32 # 10))]>
  (<["c_src" := PNum (NFloat (150 # 1))]>
  (<["c_dst" := PNum (NFloat (250 # 1))]>
  (<["em" := PNum (NInt 0)]> ∅)))).

(** The lines a sequence of turns delivers, in order, blank ones
    included. *)
Fixpoint lines_of (turns : list SerialManager.poll) : list string :=
  match turns with
  | [] => []
  | SerialManager.Line response :: turns' => response :: lines_of turns'
  | _ :: turns' => lines_of turns'
  end.

(** The line is an echo of a command. *)
Definition is_echo (line : string) : bool :=
  startswith line "COMMAND_RECEIVED:".

(** The lines that are not empty. *)
Definition nonblank (lines : list string) : list string :=
  List.filter (fun line => negb (String.eqb line "")) lines.

(** The response the specification describes for the lines received: the
    first that is not an echo; with echoes only, the last of them; with
    no line, none. *)
Definition stated_response (lines : list string) : option string :=
  match List.find (fun line => negb (is_echo line)) lines with
  | Some response => Some response
  | None => last lines
  end.

(** A port that is open, with nothing written yet. *)
Definition open_port : SerialManager.t :=
  {| SerialManager.port := "COM3";
     SerialManager.serial_conn :=
       Some {| SerialManager.is_open := true;
               SerialManager.written := [] |} |}.

(** A device that takes the command and then shows the given turns. *)
Definition answering (turns : list SerialManager.poll)
  : SerialManager.exchange :=
  {| SerialManager.write_ok := true; SerialManager.polls := turns |}.

(** The double quote of JSON texts. *)
Definition dq : string := String "034" "".

(** [s] without its first [n] characters. *)
Fixpoint drop_string (n : nat) (s : string) : string :=
  match n, s with
  | S n', String _ s' => drop_string n' s'
  | _, _ => s
  end.

(** What follows the prefix of a telemetry line, stripped: the text the
    specification has the parser read. *)
Definition payload_after_prefix (line : string) : string :=
  strip (drop_string (String.length "TELEMETRY:") line).

(** A telemetry line whose [valve] text repeats the prefix, and the line
    it is read as. *)
Definition repeated_prefix_line : string :=
  "TELEMETRY:{" ++ dq ++ "valve" ++ dq ++ ":" ++ dq ++ "TELEMETRY:OPEN"
    ++ dq ++ "}".

Definition plain_line : string :=
  "TELEMETRY:{" ++ dq ++ "valve" ++ dq ++ ":" ++ dq ++ "OPEN" ++ dq ++ "}".

(** The registered sockets whose delivery of the message fails. *)
Definition failing (send_json : nat -> gmap string pyval -> bool)
    (self : ConnectionManager.t) (message : gmap string pyval) : gset nat :=
  filter (fun c => send_json c message = false)
    (ConnectionManager.active_connections self).

(** The classification of the last operation written to the log. *)
Definition logged_result (w : Valve.world) : option string :=
  Valve.result <$> last (Valve.valve_operations w).

(** The device's answer to a command, as [send_command] returns it. *)
Definition answer (w : Valve.world) (e : Valve.env) (command : string)
  : option string :=
  fst (SerialManager.send_command (Valve.serial_manager w) command
         (Valve.device e)).

(** A world with the port open and three sockets registered, and
    surroundings in which the device answers with the given turns. *)
Definition sample_world : Valve.world :=
  {| Valve.serial_manager := open_port;
     Valve.ws_manager :=
       {| ConnectionManager.active_connections := {[1%nat; 2%nat; 3%nat]} |};
     Valve.valve_operations := [];
     Valve.system_alerts := [];
     Valve.delivered := [] |}.

(** The same world with no port opened. *)
Definition unplugged_world : Valve.world :=
  {| Valve.serial_manager :=
       {| SerialManager.port := "COM3";
          SerialManager.serial_conn := None |};
     Valve.ws_manager :=
       {| ConnectionManager.active_connections := {[1%nat; 2%nat; 3%nat]} |};
     Valve.valve_operations := [];
     Valve.system_alerts := [];
     Valve.delivered := [] |}.

Definition sample_env (turns : list SerialManager.poll) : Valve.env :=
  {| Valve.now := 1700000000;
     Valve.send_json := fun c _ => negb (c =? 2)%nat;
     Valve.device := answering turns |}.

Definition operator : Valve.User := {| Valve.username := "operator" |}.

(** The value is a number. *)
Definition numeric (x : pyval) : Prop := exists n, x = PNum n.

(** The four metrics the rules engine compares are numbers. *)
Definition metrics_numeric (telemetry : gmap string pyval) : Prop :=
  numeric (reading telemetry "p1") /\ numeric (reading telemetry "p2")
  /\ numeric (reading telemetry "c_src") /\ numeric (reading telemetry "c_dst").

(** Every condition [can_open_valve] asks of the four metrics. *)
Definition within_limits (self : RulesEngine.t)
    (telemetry : gmap string pyval) : Prop :=
  exists p1 p2 c_src c_dst,
    reading telemetry "p1" = PNum p1 /\ reading telemetry "p2" = PNum p2
    /\ reading telemetry "c_src" = PNum c_src
    /\ reading telemetry "c_dst" = PNum c_dst
    /\ ~ exceeds p1 (RulesEngine.max_pressure self)
    /\ ~ exceeds p2 (RulesEngine.max_pressure self)
    /\ ~ exceeds c_src (RulesEngine.critical_concentration self)
    /\ ~ exceeds c_dst (RulesEngine.critical_concentration self)
    /\ ~ below c_src (RulesEngine.min_src_concentration self)
    /\ ~ exceeds c_dst (RulesEngine.max_dst_concentration self).

(** The keys [validate_telemetry] reads. *)
Definition metric_keys : list string := ["p1"; "p2"; "c_src"; "c_dst"].

(** The port is one of the boards [detect_arduino] knows: an Arduino
    vendor, or the CH340 chip with its product number. *)
Definition known_arduino (p : SerialManager.ListPortInfo) : Prop :=
  SerialManager.vid p = Some 0x2341%Z
  \/ SerialManager.vid p = Some 0x2A03%Z
  \/ (SerialManager.vid p = Some 0x1A86%Z
      /\ SerialManager.pid p = Some 0x7523%Z).

(** The line a command is written as. *)
Definition command_line (command : string) : string :=
  command ++ String "010" "".

(** The lines of the handshake that reach the port: each of the three
    commands whose write succeeds. *)
Definition handshake_lines (env : SerialManager.link) : list string :=
  ((if SerialManager.write_ok (SerialManager.ping env)
    then [command_line "PING"] else [])
   ++ (if SerialManager.write_ok (SerialManager.test_mode_on env)
       then [command_line "TEST_MODE_ON"] else [])
   ++ (if SerialManager.write_ok (SerialManager.reset_emergency env)
       then [command_line "RESET_EMERGENCY"] else []))%list.

(** A manager that never opened a port, and surroundings in which a
    board is plugged in and answers nothing to the handshake. *)
Definition fresh_manager : SerialManager.t :=
  {| SerialManager.port := "COM3"; SerialManager.serial_conn := None |}.

Definition uno : SerialManager.ListPortInfo :=
  {| SerialManager.device := "/dev/ttyACM0";
     SerialManager.vid := Some 0x2341%Z;
     SerialManager.pid := Some 0x0043%Z |}.

Definition silent_link : SerialManager.link :=
  {| SerialManager.auto_detect := None;
     SerialManager.comports := [uno];
     SerialManager.open_ok := true;
     SerialManager.flush_ok := true;
     SerialManager.ping := answering [];
     SerialManager.test_mode_on := answering [];
     SerialManager.reset_emergency := answering [] |}.

(** The call of the telemetry callback an event of the read loop
    records, and the line it logs. *)
Definition dispatched_call (ev : SerialManager.loop_event)
  : option (pyval * string) :=
  match ev with
  | SerialManager.Dispatched telemetry_data line => Some (telemetry_data, line)
  | SerialManager.Informed _ => None
  end.

Definition informed_line (ev : SerialManager.loop_event) : option string :=
  match ev with
  | SerialManager.Dispatched _ _ => None
  | SerialManager.Informed line => Some line
  end.

(** The value holds a [t] in the sense of Python's [in]: a key of a
    dict, a piece of a string, an element of a list. *)
Definition holds_t (data : pyval) : Prop :=
  match data with
  | PDict d => is_Some (d !! "t")
  | PStr s => occurs_in "t" s
  | PList l => PStr "t" ∈ l
  | _ => False
  end.

(** A turn of the read loop on a link that stays up. *)
Definition reading_turn (now : Z) (what : SerialManager.poll)
  : SerialManager.iteration :=
  {| SerialManager.reconnect := silent_link;
     SerialManager.clock := now;
     SerialManager.turn := what |}.

(** A stand-in for [json.loads] to run the model on two payloads: the
    empty record and the string "t". *)
Definition json_loads_sample (text : string) : option pyval :=
  if String.eqb text "{}" then Some (PDict ∅)
  else if String.eqb text (dq ++ "t" ++ dq) then Some (PStr "t")
  else None.

(** What a turn of the read loop contributes on a link that is up. *)
Definition line_of_turn (it : SerialManager.iteration) : option string :=
  match SerialManager.turn it with
  | SerialManager.Line line => Some line
  | _ => None
  end.

(** The command an operation of the API sends and logs. *)
Definition op_command (op : Valve.operation) : string :=
  match op with
  | Valve.OpOpen => "OPEN"
  | Valve.OpClose => "CLOSE"
  | Valve.OpForceOpen => "FORCE_OPEN"
  | Valve.OpResetEmergency => "RESET_EMERGENCY"
  | Valve.OpTestModeOn => "TEST_MODE_ON"
  | Valve.OpTestModeOff => "TEST_MODE_OFF"
  end.

(** The two test-mode operations. *)
Definition is_test_mode (op : Valve.operation) : bool :=
  match op with
  | Valve.OpTestModeOn | Valve.OpTestModeOff => true
  | _ => false
  end.

(** The message [broadcast_valve_event] sends for an event. *)
Definition valve_event_message (event_data : gmap string pyval)
  : gmap string pyval :=
  <["type" := PStr "valve_event"]> (<["data" := PDict event_data]> ∅).







(** * Properties *)

(** ** Strings *)

Lemma app_nil_string (b : string) : "" ++ b = b.
Proof. reflexivity. Qed.

Lemma app_cons_string (c : ascii) (a b : string) :
  String c a ++ b = String c (a ++ b).
Proof. reflexivity. Qed.

(** Pushes the characters of a literal out of an append. *)
Ltac push_app :=
  repeat (rewrite app_cons_string in * || rewrite app_nil_string in * ).

Lemma string_app_assoc (a b c : string) : (a ++ b) ++ c = a ++ b ++ c.
Proof.
  induction a as [|x a IH]; push_app; [reflexivity | now rewrite IH].
Qed.

Lemma prefix_occurs (p s : string) :
  String.prefix p s = true <-> exists post, s = p ++ post.
Proof.
  revert s. induction p as [|c p IH]; intros s.
  - split; [intros _; now exists s | now destruct s].
  - destruct s as [|d s].
    + split; [discriminate | intros [post H]; discriminate].
    + cbn [String.prefix]. destruct (Ascii.ascii_dec c d) as [->|Hne].
      * rewrite IH. split; intros [post H]; exists post.
        -- push_app. now rewrite H.
        -- push_app. now inversion H.
      * split; [discriminate|].
        intros [post H]. push_app. inversion H. congruence.
Qed.

Lemma contains_occurs (needle s : string) :
  contains needle s = true <-> occurs_in needle s.
Proof.
  unfold occurs_in. induction s as [|c s IH].
  - cbn [contains]. rewrite orb_false_r, prefix_occurs. split.
    + intros [post H]. exists "", post. exact H.
    + intros (pre & post & H). destruct pre; push_app; [now exists post|].
      discriminate.
  - cbn [contains]. rewrite orb_true_iff, IH, prefix_occurs. split.
    + intros [[post H] | (pre & post & H)].
      * exists "", post. exact H.
      * exists (String c pre), post. push_app. now rewrite H.
    + intros (pre & post & H). destruct pre as [|d pre]; push_app.
      * left. now exists post.
      * right. inversion H. now exists pre, post.
Qed.

Lemma lower_app (a b : string) : lower (a ++ b) = lower a ++ lower b.
Proof.
  induction a as [|c a IH]; push_app; [reflexivity|].
  cbn [lower]. push_app. now rewrite IH.
Qed.

Lemma lower_split (s a b : string) :
  lower s = a ++ b -> exists a' b', s = a' ++ b' /\ lower a' = a /\ lower b' = b.
Proof.
  revert s. induction a as [|c a IH]; intros s H.
  - exists "", s. auto.
  - destruct s as [|d s]; cbn [lower] in H; push_app; [discriminate|].
    inversion H as [[Hc Hs]]. destruct (IH s Hs) as (a' & b' & -> & <- & <-).
    exists (String d a'), b'. auto.
Qed.

Lemma contains_lower_nocase (needle s : string) :
  contains (lower needle) (lower s) = true <-> occurs_in_nocase needle s.
Proof.
  rewrite contains_occurs. unfold occurs_in, occurs_in_nocase. split.
  - intros (pre & post & H).
    apply lower_split in H as (pre' & rest & -> & _ & H).
    apply lower_split in H as (mid & post' & -> & H & _).
    now exists pre', mid, post'.
  - intros (pre & mid & post & -> & H).
    exists (lower pre), (lower post). now rewrite !lower_app, H.
Qed.

(** ** Rules engine *)

Import RulesEngine.

Lemma Qlt_bool_true (a b : Q) : Qlt_bool a b = true <-> (a < b)%Q.
Proof.
  unfold Qlt_bool. rewrite negb_true_iff, <- not_true_iff_false, Qle_bool_iff.
  split; [apply Qnot_le_lt | apply Qlt_not_le].
Qed.

Lemma Qlt_bool_decide (a b : Q) : Qlt_bool a b = bool_decide (a < b)%Q.
Proof.
  destruct (Qlt_bool a b) eqn:E; symmetry.
  - apply bool_decide_eq_true, Qlt_bool_true, E.
  - apply bool_decide_eq_false. rewrite <- Qlt_bool_true. congruence.
Qed.

Lemma check_gt_entry (n : num) (limit : Q) (msg : num -> string) :
  check_gt (PNum n) limit msg = Ok (entry (exceeds n limit) (msg n)).
Proof.
  unfold check_gt, entry. rewrite Qlt_bool_decide.
  destruct (decide (exceeds n limit)) as [H|H].
  - now rewrite bool_decide_eq_true_2.
  - now rewrite bool_decide_eq_false_2.
Qed.

Lemma priority_loop_critical (keywords : list string) (s : string) :
  priority_loop keywords s = CRITICAL <->
  exists keyword, keyword ∈ keywords /\ occurs_in_nocase keyword s.
Proof.
  induction keywords as [|k ks IH]; cbn [priority_loop].
  - split; [discriminate | intros (k & Hk & _); inversion Hk].
  - destruct (contains (lower k) (lower s)) eqn:E.
    + split; [intros _ | reflexivity].
      exists k. split; [left | now apply contains_lower_nocase].
    + rewrite IH. split; intros (k' & Hk' & Hocc).
      * exists k'. split; [now right | exact Hocc].
      * exists k'. split; [|exact Hocc].
        apply elem_of_cons in Hk' as [-> | Hin]; [|exact Hin].
        apply contains_lower_nocase in Hocc. congruence.
Qed.

(** C8. The priority of a violation type is CRITICAL exactly when it
    contains "pressure", "critical" or "emergency" up to letter case,
    and HIGH for every other string. *)
Theorem get_alert_priority_spec (violation_type : string) :
  let mentions_keyword :=
    exists keyword, keyword ∈ ["pressure"; "critical"; "emergency"]
                    /\ occurs_in_nocase keyword violation_type in
  (get_alert_priority violation_type = CRITICAL <-> mentions_keyword)
  /\ (get_alert_priority violation_type = HIGH <-> ~ mentions_keyword).
Proof.
  cbv zeta. unfold get_alert_priority, critical_keywords.
  rewrite <- priority_loop_critical.
  destruct (priority_loop _ _); split; split; congruence.
Qed.

Section Verdicts.

Variable fmt : num -> string.
Variable self : RulesEngine.t.

Lemma validate_telemetry_entries telemetry p1 p2 c_src c_dst :
  reading telemetry "p1" = PNum p1 ->
  reading telemetry "p2" = PNum p2 ->
  reading telemetry "c_src" = PNum c_src ->
  reading telemetry "c_dst" = PNum c_dst ->
  let violations :=
    (entry (exceeds p1 (max_pressure self))
       (pressure_msg fmt "1" (max_pressure self) p1)
     ++ entry (exceeds p2 (max_pressure self))
          (pressure_msg fmt "2" (max_pressure self) p2)
     ++ entry (exceeds c_src (critical_concentration self))
          (concentration_msg fmt "Source" (critical_concentration self) c_src)
     ++ entry (exceeds c_dst (critical_concentration self))
          (concentration_msg fmt "Destination" (critical_concentration self)
             c_dst))%list in
  validate_telemetry fmt self telemetry
  = Ok ((length violations =? 0)%nat, violations).
Proof.
  unfold reading, validate_telemetry. intros -> -> -> ->.
  rewrite !check_gt_entry. cbn [bind]. now rewrite !app_nil_l, <- !app_assoc.
Qed.

Lemma naming_same sensor limit n rest :
  sensor = "1" \/ sensor = "2" ->
  naming sensor (pressure_msg fmt sensor limit n :: rest)
  = S (naming sensor rest).
Proof. intros [-> | ->]; reflexivity. Qed.

Lemma naming_1_2 limit n rest :
  naming "1" (pressure_msg fmt "2" limit n :: rest) = naming "1" rest.
Proof. reflexivity. Qed.

Lemma naming_2_1 limit n rest :
  naming "2" (pressure_msg fmt "1" limit n :: rest) = naming "2" rest.
Proof. reflexivity. Qed.

Lemma naming_concentration sensor side limit n rest :
  side = "Source" \/ side = "Destination" ->
  naming sensor (concentration_msg fmt side limit n :: rest)
  = naming sensor rest.
Proof. intros [-> | ->]; reflexivity. Qed.

(** C1. On a sample whose four metrics are numbers, [validate_telemetry]
    returns the violations of the breached checks, one message each, in
    the order p1, p2, c_src, c_dst, and reports safe exactly when there
    is none. With every metric within its limit the sample is safe with
    no violation; with p1 above the limit it is unsafe, exactly one
    violation names sensor 1 and one more names sensor 2 exactly when p2
    is above the limit too. *)
Theorem validate_telemetry_spec telemetry p1 p2 c_src c_dst :
  reading telemetry "p1" = PNum p1 ->
  reading telemetry "p2" = PNum p2 ->
  reading telemetry "c_src" = PNum c_src ->
  reading telemetry "c_dst" = PNum c_dst ->
  exists is_safe violations,
    validate_telemetry fmt self telemetry = Ok (is_safe, violations)
    /\ (is_safe = true <-> violations = [])
    /\ violations
       = (entry (exceeds p1 (max_pressure self))
            (pressure_msg fmt "1" (max_pressure self) p1)
          ++ entry (exceeds p2 (max_pressure self))
               (pressure_msg fmt "2" (max_pressure self) p2)
          ++ entry (exceeds c_src (critical_concentration self))
               (concentration_msg fmt "Source" (critical_concentration self)
                  c_src)
          ++ entry (exceeds c_dst (critical_concentration self))
               (concentration_msg fmt "Destination"
                  (critical_concentration self) c_dst))%list
    /\ ((num_val p1 <= max_pressure self)%Q ->
        (num_val p2 <= max_pressure self)%Q ->
        (num_val c_src <= critical_concentration self)%Q ->
        (num_val c_dst <= critical_concentration self)%Q ->
        is_safe = true /\ violations = [])
    /\ (exceeds p1 (max_pressure self) ->
        is_safe = false
        /\ naming "1" violations = 1%nat
        /\ naming "2" violations
           = if decide (exceeds p2 (max_pressure self)) then 1%nat else 0%nat).
Proof.
  intros H1 H2 H3 H4.
  pose proof (validate_telemetry_entries _ _ _ _ _ H1 H2 H3 H4) as Hv.
  cbv zeta in Hv. eexists _, _. split; [exact Hv|]. clear Hv.
  split; [|split; [reflexivity|split]].
  - rewrite Nat.eqb_eq. apply length_zero_iff_nil.
  - intros L1 L2 L3 L4. unfold entry, exceeds.
    rewrite !decide_False by (now apply Qle_not_lt). auto.
  - intros B1. unfold entry.
    destruct (decide (exceeds p1 _)) as [_|N]; [|contradiction].
    destruct (decide (exceeds p2 _)), (decide (exceeds c_src _)),
      (decide (exceeds c_dst _)); cbn [app];
      rewrite ?naming_same, ?naming_1_2, ?naming_2_1, ?naming_concentration
        by auto;
      repeat split; reflexivity.
Qed.

End Verdicts.

(** The sample with p1 = 7.5 and p2 = 6.5 under the default thresholds:
    two violations, one for each pressure sensor. *)
Lemma validate_telemetry_spec_witness :
  validate_telemetry str_num defaults
    (<["p1" := PNum (NFloat (75 # 10))]>
       (<["p2" := PNum (NFloat (65 # 10))]> nominal_sample))
  = Ok (false, ["Pressure sensor 1 exceeds limit: 7.5 > 6.0 bar";
                "Pressure sensor 2 exceeds limit: 6.5 > 6.0 bar"]).
Proof.
  destruct (validate_telemetry_spec str_num defaults
              (<["p1" := PNum (NFloat (75 # 10))]>
                 (<["p2" := PNum (NFloat (65 # 10))]> nominal_sample))
              (NFloat (75 # 10)) (NFloat (65 # 10))
              (NFloat (150 # 1)) (NFloat (250 # 1)))
    as (is_safe & violations & -> & _ & -> & _ & Hhi);
    [vm_compute; reflexivity ..|].
  destruct Hhi as (-> & _); [vm_compute; reflexivity|].
  vm_compute. reflexivity.
Defined.

Lemma py_eq_1_emergency (telemetry : gmap string pyval) :
  py_eq_1 (reading telemetry "em") = true <-> emergency telemetry.
Proof.
  unfold reading, get, emergency.
  destruct (telemetry !! "em") as [[| n | | |]|] eqn:E;
    cbn [default from_option id py_eq_1];
    try (split; [discriminate | intros (n' & Hn & _); discriminate]).
  rewrite Qeq_bool_iff. split.
  - intros H. now exists n.
  - intros (n' & Hn & H). now inversion Hn.
Qed.

Section Opening.

Variable fmt : num -> string.
Variable self : RulesEngine.t.

Lemma can_open_valve_emergency telemetry :
  emergency telemetry ->
  can_open_valve fmt self telemetry = Ok (false, "System in emergency mode").
Proof.
  intros H. apply py_eq_1_emergency in H. unfold can_open_valve.
  fold (reading telemetry "em"). now rewrite H.
Qed.

Lemma can_open_valve_no_emergency telemetry :
  ~ emergency telemetry ->
  can_open_valve fmt self telemetry
  = let* r := validate_telemetry fmt self telemetry in
    let '(is_safe, violations) := r in
    if negb is_safe then
      Ok (false, "Safety violations: " ++ join "; " violations)
    else
      match reading telemetry "c_src" with
      | PNum n_src =>
          if Qlt_bool (num_val n_src) (min_src_concentration self) then
            Ok (false, "Source concentration too low: " ++ fmt n_src ++ " < "
                         ++ fmt (NFloat (min_src_concentration self)))
          else
            match reading telemetry "c_dst" with
            | PNum n_dst =>
                if Qlt_bool (max_dst_concentration self) (num_val n_dst) then
                  Ok (false, "Destination concentration too high: "
                               ++ fmt n_dst ++ " > "
                               ++ fmt (NFloat (max_dst_concentration self)))
                else Ok (true, "All checks passed")
            | _ => Raise TypeError
            end
      | _ => Raise TypeError
      end.
Proof.
  intros H. rewrite <- py_eq_1_emergency in H. unfold can_open_valve.
  fold (reading telemetry "em"). now destruct (py_eq_1 _).
Qed.

(** C2, the order of the checks. An emergency flag rejects whatever the
    other fields are; otherwise an unsafe verdict rejects with the joined
    violations; otherwise a source concentration below the minimum
    rejects naming both values; otherwise a destination concentration
    above the maximum rejects; otherwise the valve may open. *)
Lemma can_open_valve_order telemetry :
  (emergency telemetry ->
   can_open_valve fmt self telemetry = Ok (false, "System in emergency mode"))
  /\ (~ emergency telemetry ->
      forall is_safe violations c_src c_dst,
        validate_telemetry fmt self telemetry = Ok (is_safe, violations) ->
        reading telemetry "c_src" = PNum c_src ->
        reading telemetry "c_dst" = PNum c_dst ->
        (is_safe = false ->
         can_open_valve fmt self telemetry
         = Ok (false, "Safety violations: " ++ join "; " violations))
        /\ (is_safe = true -> below c_src (min_src_concentration self) ->
            can_open_valve fmt self telemetry
            = Ok (false, "Source concentration too low: " ++ fmt c_src
                           ++ " < "
                           ++ fmt (NFloat (min_src_concentration self))))
        /\ (is_safe = true -> ~ below c_src (min_src_concentration self) ->
            exceeds c_dst (max_dst_concentration self) ->
            can_open_valve fmt self telemetry
            = Ok (false, "Destination concentration too high: " ++ fmt c_dst
                           ++ " > "
                           ++ fmt (NFloat (max_dst_concentration self))))
        /\ (is_safe = true -> ~ below c_src (min_src_concentration self) ->
            ~ exceeds c_dst (max_dst_concentration self) ->
            can_open_valve fmt self telemetry = Ok (true, "All checks passed"))).
Proof.
  split; [apply can_open_valve_emergency|].
  intros Hem is_safe violations c_src c_dst Hv Hsrc Hdst.
  rewrite (can_open_valve_no_emergency _ Hem), Hv, Hsrc, Hdst. cbn [bind].
  unfold below, exceeds. rewrite !Qlt_bool_decide.
  repeat split; intros ->; cbn [negb]; try reflexivity.
  - intros B. now rewrite bool_decide_eq_true_2.
  - intros B E. now rewrite bool_decide_eq_false_2, bool_decide_eq_true_2.
  - intros B E. now rewrite !bool_decide_eq_false_2.
Qed.

End Opening.

(** C2. [can_open_valve] applies its checks in a fixed order and returns
    the reason of the first that fails: the emergency flag (whatever the
    other fields hold, with a reason that mentions the emergency), then
    the verdict of [validate_telemetry] (the joined violations), then
    the source concentration against the minimum (both values named),
    then the destination concentration against the maximum; a sample
    that passes all four may open. The nominal sample passes under the
    default thresholds. *)
Theorem can_open_valve_spec (fmt : num -> string) (self : RulesEngine.t)
    (telemetry : gmap string pyval) :
  (emergency telemetry ->
   can_open_valve fmt self telemetry = Ok (false, "System in emergency mode"))
  /\ occurs_in_nocase "emergency" "System in emergency mode"
  /\ (~ emergency telemetry ->
      forall is_safe violations c_src c_dst,
        validate_telemetry fmt self telemetry = Ok (is_safe, violations) ->
        reading telemetry "c_src" = PNum c_src ->
        reading telemetry "c_dst" = PNum c_dst ->
        (is_safe = false ->
         can_open_valve fmt self telemetry
         = Ok (false, "Safety violations: " ++ join "; " violations))
        /\ (is_safe = true -> below c_src (min_src_concentration self) ->
            can_open_valve fmt self telemetry
            = Ok (false, "Source concentration too low: " ++ fmt c_src
                           ++ " < "
                           ++ fmt (NFloat (min_src_concentration self))))
        /\ (is_safe = true -> ~ below c_src (min_src_concentration self) ->
            exceeds c_dst (max_dst_concentration self) ->
            can_open_valve fmt self telemetry
            = Ok (false, "Destination concentration too high: " ++ fmt c_dst
                           ++ " > "
                           ++ fmt (NFloat (max_dst_concentration self))))
        /\ (is_safe = true -> ~ below c_src (min_src_concentration self) ->
            ~ exceeds c_dst (max_dst_concentration self) ->
            can_open_valve fmt self telemetry = Ok (true, "All checks passed")))
  /\ can_open_valve fmt defaults nominal_sample = Ok (true, "All checks passed").
Proof.
  destruct (can_open_valve_order fmt self telemetry) as [Hem Hrest].
  split; [exact Hem|]. split; [|split; [exact Hrest|]].
  - exists "System in ", "emergency", " mode". split; reflexivity.
  - vm_compute. reflexivity.
Qed.

(** The specification's example p1 = 0, c_src = 200, em = 1, which is
    rejected for the emergency alone. *)
Lemma can_open_valve_spec_witness :
  can_open_valve str_num defaults
    (<["p1" := PNum (NInt 0)]>
       (<["c_src" := PNum (NInt 200)]> (<["em" := PNum (NInt 1)]> ∅)))
  = Ok (false, "System in emergency mode").
Proof.
  apply (can_open_valve_spec str_num defaults
           (<["p1" := PNum (NInt 0)]>
              (<["c_src" := PNum (NInt 200)]> (<["em" := PNum (NInt 1)]> ∅)))).
  exists (NInt 1). split; vm_compute; reflexivity.
Defined.

Lemma get_insert_zero (telemetry : gmap string pyval) (key key' : string) :
  telemetry !! key = None ->
  get (<[key := PNum (NInt 0)]> telemetry) key' (PNum (NInt 0))
  = get telemetry key' (PNum (NInt 0)).
Proof.
  intros H. unfold get. destruct (decide (key = key')) as [<-|Hne].
  - now rewrite lookup_insert_eq, H.
  - now rewrite lookup_insert_ne.
Qed.

Lemma reading_missing (telemetry : gmap string pyval) (key : string) :
  telemetry !! key = None -> reading telemetry key = PNum (NInt 0).
Proof. intros H. unfold reading, get. now rewrite H. Qed.

Lemma can_open_valve_emergency_only (fmt : num -> string)
    (self : RulesEngine.t) (telemetry : gmap string pyval) :
  can_open_valve fmt self telemetry = Ok (false, "System in emergency mode")
  -> emergency telemetry.
Proof.
  intros H. destruct (decide (py_eq_1 (reading telemetry "em") = true)) as [E|E].
  { now apply py_eq_1_emergency. }
  rewrite py_eq_1_emergency in E.
  rewrite (can_open_valve_no_emergency fmt self _ E) in H.
  destruct (validate_telemetry fmt self telemetry) as [[[] vs]|]; cbn in H;
    [|discriminate|discriminate].
  destruct (reading telemetry "c_src"); try discriminate.
  destruct (Qlt_bool _ _); [discriminate|].
  destruct (reading telemetry "c_dst"); try discriminate.
  destruct (Qlt_bool _ _); discriminate.
Qed.

(** C9. A metric the sample does not carry counts as 0 in both
    operations: adding it with the value 0 changes neither result. With
    all five fields missing (and thresholds that are not negative, as the
    defaults are) [validate_telemetry] reports safe with no violation and
    [can_open_valve] rejects because 0 is below the minimum source
    concentration. The emergency rejection is returned exactly when the
    sample carries an [em] equal to 1, so not when [em] is missing. *)
Theorem missing_metric_is_zero (fmt : num -> string)
    (env_max_pressure env_critical : option Q)
    (telemetry : gmap string pyval) :
  let self := init env_max_pressure env_critical in
  (forall key, telemetry !! key = None ->
     validate_telemetry fmt self (<[key := PNum (NInt 0)]> telemetry)
     = validate_telemetry fmt self telemetry
     /\ can_open_valve fmt self (<[key := PNum (NInt 0)]> telemetry)
        = can_open_valve fmt self telemetry)
  /\ ((0 <= max_pressure self)%Q -> (0 <= critical_concentration self)%Q ->
      (forall key, key ∈ ["p1"; "p2"; "c_src"; "c_dst"; "em"] ->
                   telemetry !! key = None) ->
      validate_telemetry fmt self telemetry = Ok (true, [])
      /\ below (NInt 0) (min_src_concentration self)
      /\ can_open_valve fmt self telemetry
         = Ok (false, "Source concentration too low: " ++ fmt (NInt 0)
                        ++ " < " ++ fmt (NFloat (min_src_concentration self))))
  /\ (can_open_valve fmt self telemetry = Ok (false, "System in emergency mode")
      <-> emergency telemetry)
  /\ (telemetry !! "em" = None -> ~ emergency telemetry).
Proof.
  intros self. split; [|split; [|split]].
  - intros key H. unfold can_open_valve, validate_telemetry.
    now rewrite !(get_insert_zero _ _ _ H).
  - intros Hp Hc Hmiss.
    assert (R1 : reading telemetry "p1" = PNum (NInt 0))
      by (apply reading_missing, Hmiss; set_solver).
    assert (R2 : reading telemetry "p2" = PNum (NInt 0))
      by (apply reading_missing, Hmiss; set_solver).
    assert (R3 : reading telemetry "c_src" = PNum (NInt 0))
      by (apply reading_missing, Hmiss; set_solver).
    assert (R4 : reading telemetry "c_dst" = PNum (NInt 0))
      by (apply reading_missing, Hmiss; set_solver).
    assert (Hv : validate_telemetry fmt self telemetry = Ok (true, [])).
    { rewrite (validate_telemetry_entries fmt self _ _ _ _ _ R1 R2 R3 R4).
      unfold entry, exceeds. now rewrite !decide_False by (now apply Qle_not_lt). }
    assert (Hb : below (NInt 0) (min_src_concentration self)) by reflexivity.
    split; [exact Hv|]. split; [exact Hb|].
    assert (Hem : ~ emergency telemetry).
    { intros (n & Hn & _). rewrite Hmiss in Hn; [discriminate | set_solver]. }
    destruct (can_open_valve_order fmt self telemetry) as [_ Hrest].
    destruct (Hrest Hem true [] (NInt 0) (NInt 0) Hv R3 R4) as (_ & Hlow & _).
    exact (Hlow eq_refl Hb).
  - split; [apply can_open_valve_emergency_only | apply can_open_valve_emergency].
  - intros H (n & Hn & _). congruence.
Qed.

(** The empty sample under the default thresholds. *)
Lemma missing_metric_is_zero_witness :
  validate_telemetry str_num defaults ∅ = Ok (true, [])
  /\ can_open_valve str_num defaults ∅
     = Ok (false, "Source concentration too low: 0 < 10.0").
Proof.
  destruct (missing_metric_is_zero str_num None None ∅)
    as (_ & Hall & _ & _).
  destruct Hall as (Hv & _ & Hc).
  - vm_compute. discriminate.
  - vm_compute. discriminate.
  - intros key _. apply lookup_empty.
  - split; [exact Hv | exact Hc].
Defined.

(** ** Serial manager *)

Import SerialManager.

Lemma find_app_none {A} (f : A -> bool) (l1 l2 : list A) :
  List.find f l1 = None -> List.find f (l1 ++ l2) = List.find f l2.
Proof.
  induction l1 as [|x l1 IH]; [reflexivity|]. cbn [List.find app].
  destruct (f x); [discriminate | exact IH].
Qed.

Lemma find_snoc_none {A} (f : A -> bool) (l : list A) (x : A) :
  List.find f l = None -> f x = false -> List.find f (l ++ [x]) = None.
Proof.
  intros Hl Hx. rewrite find_app_none by exact Hl. cbn. now rewrite Hx.
Qed.

(** The loop, for echoes received so far and turns without I/O error. *)
Lemma wait_response_stated (turns : list poll) (lines_received : list string) :
  Fault ∉ turns ->
  List.find (fun line => negb (is_echo line)) lines_received = None ->
  wait_response turns lines_received
  = stated_response (lines_received ++ nonblank (lines_of turns)).
Proof.
  revert lines_received.
  induction turns as [|[|response|] turns IH]; intros acc Hf Hacc.
  - cbn [wait_response lines_of nonblank List.filter]. rewrite app_nil_r.
    unfold stated_response. rewrite Hacc.
    destruct (decide (acc = [])) as [->|]; reflexivity.
  - cbn [wait_response lines_of]. apply IH; [set_solver | exact Hacc].
  - cbn [wait_response lines_of nonblank List.filter].
    destruct (String.eqb response "") eqn:Hblank; cbn [negb].
    + apply IH; [set_solver | exact Hacc].
    + fold (is_echo response). destruct (is_echo response) eqn:He; cbn [negb].
      * rewrite IH; [|set_solver|apply find_snoc_none; [exact Hacc|now rewrite He]].
        unfold nonblank. now rewrite <- app_assoc.
      * unfold stated_response. rewrite find_app_none by exact Hacc.
        cbn [List.find]. now rewrite He.
  - exfalso. apply Hf. left.
Qed.

Lemma wait_response_nonblank (turns : list poll) (lines_received : list string)
    (response : string) :
  wait_response turns lines_received = Some response ->
  Forall (fun line => line <> "") lines_received ->
  response <> "".
Proof.
  revert lines_received.
  induction turns as [|[|r|] turns IH]; intros acc H Hacc;
    cbn [wait_response] in H.
  - destruct (decide (acc = [])); [discriminate|].
    apply last_Some in H as [l' ->]. apply Forall_app in Hacc as [_ Hr].
    now inversion Hr.
  - eapply IH; eauto.
  - destruct (String.eqb r "") eqn:Hblank; cbn [negb] in H.
    + eapply IH; eauto.
    + apply String.eqb_neq in Hblank.
      destruct (startswith r "COMMAND_RECEIVED:"); cbn [negb] in H.
      * eapply IH; [exact H|]. apply Forall_app. split; [exact Hacc|].
        now constructor.
      * now inversion H; subst.
  - discriminate.
Qed.

Lemma send_command_connected (self : t) (command : string) (device : exchange) :
  is_connected self = true -> write_ok device = true ->
  fst (send_command self command device) = wait_response (polls device) [].
Proof.
  unfold is_connected, send_command. intros Hc Hw.
  destruct (serial_conn self) as [conn|]; [|discriminate].
  now rewrite Hc, Hw.
Qed.

Lemma send_command_nonblank (self : t) (command : string) (device : exchange)
    (response : string) :
  fst (send_command self command device) = Some response -> response <> "".
Proof.
  unfold send_command.
  destruct (serial_conn self) as [conn|]; [|discriminate].
  destruct (is_open conn); [|discriminate].
  destruct (write_ok device); [|discriminate].
  cbn [fst]. intros H. eapply wait_response_nonblank; [exact H | constructor].
Qed.

Lemma send_command_disconnected (self : t) (command : string)
    (device : exchange) :
  is_connected self = false -> send_command self command device = (None, self).
Proof.
  unfold is_connected, send_command. intros Hc.
  destruct (serial_conn self) as [conn|]; [|reflexivity]. now rewrite Hc.
Qed.

(** Closes [Fault ∉ turns] for an explicit list of turns. *)
Ltac no_fault :=
  cbn [polls answering]; rewrite ?not_elem_of_cons;
  repeat split; try discriminate; apply not_elem_of_nil.

(** C3, as stated, fails on a blank line: the first line received that
    is not an echo is the blank one, and [send_command] passes over it
    and returns the line after it. *)
Lemma send_command_blank_line :
  stated_response (lines_of [Line ""; Line "VALVE_OPENED"]) = Some ""
  /\ fst (send_command open_port "OPEN"
            (answering [Line ""; Line "VALVE_OPENED"]))
     = Some "VALVE_OPENED"
  /\ fst (send_command open_port "OPEN"
            (answering [Line ""; Line "VALVE_OPENED"]))
     <> stated_response (lines_of [Line ""; Line "VALVE_OPENED"]).
Proof. split; [reflexivity | split; [reflexivity | discriminate]]. Qed.

(** C3, amended. On an open port that takes the command and raises no
    I/O error before the timeout, [send_command] passes over blank lines
    and echoes and returns the first other line; when only echoes (and
    blank lines) arrive it returns the last echo, and when no line that
    is not blank arrives it returns none. *)
Theorem send_command_spec (self : t) (command : string) (device : exchange) :
  is_connected self = true ->
  write_ok device = true ->
  Fault ∉ polls device ->
  fst (send_command self command device)
  = stated_response (nonblank (lines_of (polls device))).
Proof.
  intros Hc Hw Hf. rewrite send_command_connected by assumption.
  now rewrite wait_response_stated by (assumption || reflexivity).
Qed.

(** The three transcripts of the specification: echo then answer, echo
    only, and nothing. *)
Lemma send_command_spec_witness :
  fst (send_command open_port "OPEN"
         (answering [Line "COMMAND_RECEIVED:OPEN"; Idle; Line "VALVE_OPENED"]))
  = Some "VALVE_OPENED"
  /\ fst (send_command open_port "OPEN"
            (answering [Idle; Line "COMMAND_RECEIVED:OPEN"; Idle]))
     = Some "COMMAND_RECEIVED:OPEN"
  /\ fst (send_command open_port "OPEN" (answering [Idle; Idle])) = None.
Proof.
  split; [|split].
  - rewrite (send_command_spec open_port "OPEN"
               (answering [Line "COMMAND_RECEIVED:OPEN"; Idle;
                           Line "VALVE_OPENED"]));
      [reflexivity | reflexivity | reflexivity | no_fault].
  - rewrite (send_command_spec open_port "OPEN"
               (answering [Idle; Line "COMMAND_RECEIVED:OPEN"; Idle]));
      [reflexivity | reflexivity | reflexivity | no_fault].
  - rewrite (send_command_spec open_port "OPEN" (answering [Idle; Idle]));
      [reflexivity | reflexivity | reflexivity | no_fault].
Defined.

Lemma replace_from_absent (old new s : string) :
  contains old s = false -> replace_from old new 0 s = s.
Proof.
  induction s as [|c s IH]; [reflexivity|]. cbn [contains replace_from].
  intros H. apply orb_false_elim in H as [Hp Hc]. rewrite Hp.
  now rewrite IH.
Qed.

Lemma replace_from_match (old new : string) (c : ascii) (s : string) :
  String.prefix old (String c s) = true ->
  replace_from old new 0 (String c s)
  = new ++ replace_from old new (String.length old - 1) s.
Proof. intros H. cbn [replace_from]. now rewrite H. Qed.

Lemma replace_from_skip (old new : string) (k : nat) (s : string) :
  replace_from old new k s = replace_from old new 0 (drop_string k s).
Proof.
  revert k. induction s as [|c s IH]; intros [|k]; try reflexivity.
  cbn [replace_from drop_string]. apply IH.
Qed.

(** When the prefix is the only occurrence of "TELEMETRY:" in the line,
    the parser reads what follows the prefix. *)
Lemma json_str_single_prefix (rest : string) :
  contains "TELEMETRY:" rest = false ->
  json_str ("TELEMETRY:" ++ rest) = payload_after_prefix ("TELEMETRY:" ++ rest)
  /\ json_str ("TELEMETRY:" ++ rest) = strip rest.
Proof.
  intros H. unfold json_str, payload_after_prefix, replace.
  change ("TELEMETRY:" ++ rest) with (String "T" ("ELEMETRY:" ++ rest)).
  rewrite replace_from_match by (apply prefix_occurs; now exists rest).
  rewrite replace_from_skip.
  change (drop_string _ ("ELEMETRY:" ++ rest)) with rest.
  change (drop_string _ (String "T" ("ELEMETRY:" ++ rest))) with rest.
  rewrite app_nil_string, replace_from_absent by exact H. split; reflexivity.
Qed.

Section Parsing.

Variable json_loads : string -> option pyval.
Variable now : Z.

Lemma parse_telemetry_requires_prefix (line : string) :
  startswith line "TELEMETRY:" = false ->
  parse_telemetry json_loads now line = None.
Proof. intros H. unfold parse_telemetry. now rewrite H. Qed.

Lemma parse_telemetry_bad_json (line : string) :
  json_loads (json_str line) = None ->
  parse_telemetry json_loads now line = None.
Proof.
  intros H. unfold parse_telemetry. rewrite H. now destruct (negb _).
Qed.

(** A parsed record keeps its entries; [t] is added only when absent. *)
Lemma parse_telemetry_record (line : string) (d : gmap string pyval) :
  startswith line "TELEMETRY:" = true ->
  json_loads (json_str line) = Some (PDict d) ->
  parse_telemetry json_loads now line
  = Some (PDict (match d !! "t" with
                 | Some _ => d
                 | None => <["t" := PNum (NInt now)]> d
                 end)).
Proof.
  intros Hp Hj. unfold parse_telemetry. rewrite Hp, Hj. cbn [negb t_not_in].
  destruct (d !! "t") as [v|] eqn:E.
  - now rewrite bool_decide_eq_false_2.
  - now rewrite bool_decide_eq_true_2.
Qed.

(** A payload that is not JSON can become one once the repeated text is
    gone: [{TELEMETRY:}] is read as the empty record. *)
Lemma parse_telemetry_malformed_accepted :
  json_loads "{}" = Some (PDict ∅) ->
  payload_after_prefix "TELEMETRY:{TELEMETRY:}" = "{TELEMETRY:}"
  /\ parse_telemetry json_loads now "TELEMETRY:{TELEMETRY:}"
     = Some (PDict (<["t" := PNum (NInt now)]> ∅)).
Proof.
  intros H. split; [reflexivity|].
  rewrite (parse_telemetry_record _ ∅); [reflexivity | reflexivity | exact H].
Qed.

End Parsing.

(** C4, at the line whose [valve] text repeats the prefix. The text after
    the prefix holds the value "TELEMETRY:OPEN"; [parse_telemetry] hands
    the parser a text in which that value reads "OPEN", so whatever the
    parser and the clock, the line gives the result of the line that
    says "OPEN". *)
Theorem parse_telemetry_repeated_prefix :
  startswith repeated_prefix_line "TELEMETRY:" = true
  /\ payload_after_prefix repeated_prefix_line
     = "{" ++ dq ++ "valve" ++ dq ++ ":" ++ dq ++ "TELEMETRY:OPEN" ++ dq ++ "}"
  /\ json_str repeated_prefix_line
     = "{" ++ dq ++ "valve" ++ dq ++ ":" ++ dq ++ "OPEN" ++ dq ++ "}"
  /\ json_str repeated_prefix_line <> payload_after_prefix repeated_prefix_line
  /\ forall json_loads now,
       parse_telemetry json_loads now repeated_prefix_line
       = parse_telemetry json_loads now plain_line.
Proof.
  split; [reflexivity|]. split; [reflexivity|]. split; [reflexivity|].
  split; [discriminate|]. intros json_loads now. reflexivity.
Qed.

(** ** Broadcast hub *)

Import ConnectionManager.

Section Broadcast.

Variable send_json : nat -> gmap string pyval -> bool.
Variable message : gmap string pyval.

Lemma sweep_spec (connections : list nat) (disconnected : gset nat)
    (sent : list (nat * gmap string pyval)) :
  sweep send_json connections message disconnected sent
  = (disconnected
       ∪ list_to_set (filter (fun c => send_json c message = false) connections),
     (sent ++ ((fun c => (c, message))
                 <$> filter (fun c => send_json c message = true) connections))%list).
Proof.
  revert disconnected sent.
  induction connections as [|c cs IH]; intros disconnected sent.
  - cbn [sweep]. rewrite !filter_nil, list_to_set_nil, app_nil_r.
    now rewrite union_empty_r_L.
  - cbn [sweep]. destruct (send_json c message) eqn:E; rewrite IH.
    + rewrite (filter_cons_True (fun c => send_json c message = true))
        by exact E.
      rewrite (filter_cons_False (fun c => send_json c message = false))
        by congruence.
      now rewrite fmap_cons, <- app_assoc.
    + rewrite (filter_cons_True (fun c => send_json c message = false))
        by exact E.
      rewrite (filter_cons_False (fun c => send_json c message = true))
        by congruence.
      rewrite list_to_set_cons. f_equal.
      rewrite (union_comm_L {[c]} disconnected). now rewrite (assoc_L (∪)).
Qed.

Lemma failing_elements (self : t) :
  list_to_set (filter (fun c => send_json c message = false)
                 (elements (active_connections self)))
  = failing send_json self message.
Proof.
  apply set_eq. intros c. unfold failing.
  rewrite elem_of_list_to_set, list_elem_of_filter, elem_of_elements.
  rewrite elem_of_filter. reflexivity.
Qed.

(** [broadcast] as one equation: the failing sockets leave the set, the
    others receive the message, in the order the set is walked. *)
Lemma broadcast_eq (self : t) :
  broadcast send_json self message
  = ({| active_connections :=
          active_connections self ∖ failing send_json self message |},
     ((fun c => (c, message))
        <$> filter (fun c => send_json c message = true)
              (elements (active_connections self)))).
Proof.
  unfold broadcast. destruct self as [conns]. cbn [active_connections].
  destruct (decide (conns = ∅)) as [->|Hne].
  - unfold failing. cbn [active_connections].
    rewrite elements_empty, filter_nil, filter_empty_L, difference_diag_L;
      [reflexivity | apply _].
  - rewrite sweep_spec, app_nil_l, union_empty_l_L.
    pose proof (failing_elements {| active_connections := conns |}) as HF.
    cbn [active_connections] in HF. rewrite HF. clear HF.
    destruct (decide (failing send_json _ message = ∅)) as [->|Hf];
      [|reflexivity].
    now rewrite difference_empty_L.
Qed.

End Broadcast.

(** C7. Whatever the registered sockets and the message, [broadcast]
    delivers the message to every registered socket whose delivery does
    not fail, once and to no other, removes exactly the failing sockets
    from the set, and the count afterwards is the count before less the
    number of failing sockets. The count is the number of registered
    sockets: with N distinct subscribers registered, the count is N
    before the broadcast and N less the number of subscribers whose
    delivery failed after it. *)
Theorem broadcast_spec (send_json : nat -> gmap string pyval -> bool)
    (self : t) (message : gmap string pyval) :
  let self' := fst (broadcast send_json self message) in
  let sent := snd (broadcast send_json self message) in
  (forall c, c ∈ active_connections self -> send_json c message = true ->
             (c, message) ∈ sent)
  /\ (forall c m, (c, m) ∈ sent ->
                  c ∈ active_connections self /\ m = message
                  /\ send_json c message = true)
  /\ NoDup sent
  /\ active_connections self'
     = active_connections self ∖ failing send_json self message
  /\ (forall c, c ∈ active_connections self' <->
                c ∈ active_connections self /\ send_json c message = true)
  /\ get_connection_count self'
     = (get_connection_count self
        - size (failing send_json self message))%nat
  /\ get_connection_count self = size (active_connections self)
  /\ get_connection_count self'
     = (size (active_connections self)
        - size (failing send_json self message))%nat
  /\ (forall subscribers : list nat,
        NoDup subscribers ->
        active_connections self = list_to_set subscribers ->
        get_connection_count self = length subscribers
        /\ get_connection_count self'
           = (length subscribers
              - length (filter (fun c => send_json c message = false)
                          subscribers))%nat).
Proof.
  cbv zeta. rewrite broadcast_eq. cbn [fst snd active_connections].
  assert (Hsize : size (active_connections self
                        ∖ failing send_json self message)
                  = (size (active_connections self)
                     - size (failing send_json self message))%nat).
  { apply size_difference. unfold failing. intros c.
    rewrite elem_of_filter. tauto. }
  split; [|split; [|split; [|split; [|split; [|split; [|split; [|split]]]]]]];
    [| | | | | | reflexivity | exact Hsize
     | intros subscribers Hnd Hact; unfold get_connection_count;
       cbn [active_connections]; rewrite Hsize;
       assert (Hfail : failing send_json self message
                       = list_to_set
                           (filter (fun c => send_json c message = false)
                              subscribers))
         by (apply set_eq; intros c; unfold failing;
             rewrite elem_of_filter, Hact, !elem_of_list_to_set,
               list_elem_of_filter; tauto);
       rewrite Hfail, Hact, !size_list_to_set
         by (try apply NoDup_filter; exact Hnd);
       split; reflexivity].
  - intros c Hc Hok. apply list_elem_of_fmap. exists c. split; [reflexivity|].
    apply list_elem_of_filter. split; [exact Hok|]. now apply elem_of_elements.
  - intros c m H. apply list_elem_of_fmap in H as (c' & Heq & H).
    inversion Heq; subst. apply list_elem_of_filter in H as [Hok H].
    apply elem_of_elements in H. auto.
  - apply NoDup_fmap_2.
    + intros c1 c2 H. now inversion H.
    + apply NoDup_filter, NoDup_elements.
  - reflexivity.
  - intros c. unfold failing. rewrite elem_of_difference, elem_of_filter.
    destruct (send_json c message); split; intros H.
    + destruct H as [H _]. auto.
    + split; [apply H|]. intros [? _]. discriminate.
    + destruct H as [H N]. exfalso. apply N. auto.
    + destruct H as [_ ?]. discriminate.
  - unfold get_connection_count. cbn [active_connections].
    apply size_difference. unfold failing. intros c.
    rewrite elem_of_filter. tauto.
Qed.

(** ** Valve API *)

Import Valve.

Lemma log_operation_result w e command user result message :
  logged_result (log_operation w e command user result message) = Some result.
Proof.
  unfold logged_result, log_operation.
  destruct (broadcast_valve_event _ _ _) as [ws sent].
  cbn [valve_operations]. now rewrite last_snoc.
Qed.

Lemma log_operation_serial w e command user result message :
  serial_manager (log_operation w e command user result message)
  = serial_manager w.
Proof.
  unfold log_operation. now destruct (broadcast_valve_event _ _ _).
Qed.

Lemma send_answer w e command :
  fst (send w e command) = answer w e command.
Proof.
  unfold send, answer. now destruct (SerialManager.send_command _ _ _).
Qed.

Lemma contains_false (needle s : string) :
  contains needle s = false <-> ~ occurs_in needle s.
Proof. rewrite <- contains_occurs. now destruct (contains needle s). Qed.

Lemma contains_nocase_false (needle s : string) :
  contains (lower needle) (lower s) = false <-> ~ occurs_in_nocase needle s.
Proof.
  rewrite <- contains_lower_nocase.
  now destruct (contains (lower needle) (lower s)).
Qed.

Lemma occurs_in_weaken (pre needle s : string) :
  occurs_in (pre ++ needle) s -> occurs_in needle s.
Proof.
  intros (a & b & ->). exists (a ++ pre), b.
  now rewrite <- !string_app_assoc.
Qed.

(** [open_valve] once the device has answered. *)
Lemma open_valve_answered w e user response :
  SerialManager.is_connected (serial_manager w) = true ->
  answer w e "OPEN" = Some response ->
  exists w1,
    open_valve w e user
    = if contains "VALVE_OPENED" response then
        (respond true "Valve opened successfully" (Some OPEN),
         log_operation w1 e "OPEN" user "SUCCESS" "Valve opened successfully")
      else if contains "ERROR" response
              || contains "emergency" (lower response) then
        (respond false response None,
         log_operation w1 e "OPEN" user "REJECTED" response)
      else
        (respond false ("Unexpected response: " ++ response) None,
         log_operation w1 e "OPEN" user "UNKNOWN" response).
Proof.
  intros Hc Ha. unfold open_valve. rewrite Hc. cbn [negb].
  pose proof (send_answer w e "OPEN") as Hs. rewrite Ha in Hs.
  destruct (send w e "OPEN") as [r w1]. cbn [fst] in Hs. subst r.
  exists w1. apply send_command_nonblank in Ha.
  apply String.eqb_neq in Ha. now rewrite Ha.
Qed.

Lemma close_valve_answered w e user response :
  SerialManager.is_connected (serial_manager w) = true ->
  answer w e "CLOSE" = Some response ->
  exists w1,
    close_valve w e user
    = if contains "VALVE_CLOSED" response
         || contains "ALREADY_CLOSED" response then
        (respond true "Valve closed successfully" (Some CLOSED),
         log_operation w1 e "CLOSE" user "SUCCESS" "Valve closed successfully")
      else
        (respond false ("Unexpected response: " ++ response) None,
         log_operation w1 e "CLOSE" user "UNKNOWN" response).
Proof.
  intros Hc Ha. unfold close_valve. rewrite Hc. cbn [negb].
  pose proof (send_answer w e "CLOSE") as Hs. rewrite Ha in Hs.
  destruct (send w e "CLOSE") as [r w1]. cbn [fst] in Hs. subst r.
  exists w1. apply send_command_nonblank in Ha.
  apply String.eqb_neq in Ha. now rewrite Ha.
Qed.

(** C5. Once the device has answered an OPEN command, an answer that
    contains "VALVE_OPENED" is logged as SUCCESS and the valve state
    returned is OPEN; failing that, an answer that contains "ERROR", or
    "emergency" in any letter case, is logged as REJECTED and returned as
    the message; any other answer is logged as UNKNOWN. For CLOSE, an
    answer that contains "VALVE_CLOSED" or "VALVE_ALREADY_CLOSED" (or
    just "ALREADY_CLOSED") is logged as SUCCESS with the state CLOSED,
    and an answer with neither marker is logged as UNKNOWN. *)
Theorem valve_response_classification (w : world) (e : env) (user : User)
    (response : string) :
  SerialManager.is_connected (serial_manager w) = true ->
  (answer w e "OPEN" = Some response ->
   let r := open_valve w e user in
   (occurs_in "VALVE_OPENED" response ->
    logged_result (snd r) = Some "SUCCESS"
    /\ fst r = respond true "Valve opened successfully" (Some OPEN))
   /\ (~ occurs_in "VALVE_OPENED" response ->
       occurs_in "ERROR" response \/ occurs_in_nocase "emergency" response ->
       logged_result (snd r) = Some "REJECTED"
       /\ fst r = respond false response None)
   /\ (~ occurs_in "VALVE_OPENED" response ->
       ~ occurs_in "ERROR" response ->
       ~ occurs_in_nocase "emergency" response ->
       logged_result (snd r) = Some "UNKNOWN"
       /\ fst r = respond false ("Unexpected response: " ++ response) None))
  /\ (answer w e "CLOSE" = Some response ->
      let r := close_valve w e user in
      (occurs_in "VALVE_CLOSED" response
       \/ occurs_in "VALVE_ALREADY_CLOSED" response
       \/ occurs_in "ALREADY_CLOSED" response ->
       logged_result (snd r) = Some "SUCCESS"
       /\ fst r = respond true "Valve closed successfully" (Some CLOSED))
      /\ (~ occurs_in "VALVE_CLOSED" response ->
          ~ occurs_in "ALREADY_CLOSED" response ->
          logged_result (snd r) = Some "UNKNOWN"
          /\ fst r = respond false ("Unexpected response: " ++ response) None)).
Proof.
  intros Hc. split; intros Ha; cbv zeta.
  - destruct (open_valve_answered w e user response Hc Ha) as [w1 ->].
    split; [|split].
    + intros H. apply contains_occurs in H. rewrite H. cbn [fst snd].
      now rewrite log_operation_result.
    + intros N H. apply contains_false in N. rewrite N.
      assert (contains "ERROR" response
              || contains "emergency" (lower response) = true) as ->.
      { apply orb_true_iff. destruct H as [H|H]; [left|right].
        - now apply contains_occurs.
        - now apply (contains_lower_nocase "emergency"). }
      cbn [fst snd]. now rewrite log_operation_result.
    + intros N1 N2 N3. apply contains_false in N1, N2.
      apply (contains_nocase_false "emergency") in N3.
      change (lower "emergency") with "emergency" in N3.
      rewrite N1, N2, N3. cbn [orb fst snd].
      now rewrite log_operation_result.
  - destruct (close_valve_answered w e user response Hc Ha) as [w1 ->].
    split.
    + intros H.
      assert (contains "VALVE_CLOSED" response
              || contains "ALREADY_CLOSED" response = true) as ->.
      { apply orb_true_iff. destruct H as [H|[H|H]].
        - left. now apply contains_occurs.
        - right. apply contains_occurs.
          now apply (occurs_in_weaken "VALVE_" "ALREADY_CLOSED").
        - right. now apply contains_occurs. }
      cbn [fst snd]. now rewrite log_operation_result.
    + intros N1 N2. apply contains_false in N1, N2. rewrite N1, N2.
      cbn [orb fst snd]. now rewrite log_operation_result.
Qed.

(** The specification's answers "ERROR: Overpressure" to OPEN and
    "VALVE_ALREADY_CLOSED" to CLOSE, each after the echo. *)
Lemma valve_response_classification_witness :
  logged_result
    (snd (open_valve sample_world
            (sample_env [SerialManager.Line "COMMAND_RECEIVED:OPEN";
                         SerialManager.Line "ERROR: Overpressure"])
            operator))
  = Some "REJECTED"
  /\ fst (close_valve sample_world
            (sample_env [SerialManager.Line "COMMAND_RECEIVED:CLOSE";
                         SerialManager.Line "VALVE_ALREADY_CLOSED"])
            operator)
     = respond true "Valve closed successfully" (Some CLOSED).
Proof.
  split.
  - destruct (valve_response_classification sample_world
                (sample_env [SerialManager.Line "COMMAND_RECEIVED:OPEN";
                             SerialManager.Line "ERROR: Overpressure"])
                operator "ERROR: Overpressure" eq_refl) as [Hopen _].
    destruct (Hopen eq_refl) as (_ & Hrej & _).
    apply Hrej.
    + apply contains_false. reflexivity.
    + left. exists "", ": Overpressure". reflexivity.
  - destruct (valve_response_classification sample_world
                (sample_env [SerialManager.Line "COMMAND_RECEIVED:CLOSE";
                             SerialManager.Line "VALVE_ALREADY_CLOSED"])
                operator "VALVE_ALREADY_CLOSED" eq_refl) as [_ Hclose].
    destruct (Hclose eq_refl) as (Hok & _).
    apply Hok. right. left. exists "", "". reflexivity.
Defined.

(** C6. Each of the six operations, on a link that does not report
    connected, ends at once with the error 503 "Arduino not connected"
    and leaves the serial manager as it was: nothing is written to the
    device. [send_command] itself refuses in the same way. *)
Theorem command_requires_connection (op : operation) (w : world) (e : env)
    (user : User) :
  SerialManager.is_connected (serial_manager w) = false ->
  fst (run op w e user) = HTTPException 503 "Arduino not connected"
  /\ serial_manager (snd (run op w e user)) = serial_manager w
  /\ forall command,
       SerialManager.send_command (serial_manager w) command (device e)
       = (None, serial_manager w).
Proof.
  intros Hc. split; [|split].
  - destruct op; cbn [run];
      unfold open_valve, close_valve, force_open_valve, reset_emergency,
        enable_test_mode, disable_test_mode, test_mode;
      now rewrite Hc.
  - destruct op; cbn [run];
      unfold open_valve, close_valve, force_open_valve, reset_emergency,
        enable_test_mode, disable_test_mode, test_mode;
      rewrite Hc; cbn [negb snd]; rewrite ?log_operation_serial; reflexivity.
  - intros command. now apply send_command_disconnected.
Qed.

(** Force-open on a world whose port was never opened. *)
Lemma command_requires_connection_witness :
  fst (run OpForceOpen unplugged_world
         (sample_env [SerialManager.Line "VALVE_OPENED"]) operator)
  = HTTPException 503 "Arduino not connected"
  /\ SerialManager.serial_conn
       (serial_manager
          (snd (run OpForceOpen unplugged_world
                  (sample_env [SerialManager.Line "VALVE_OPENED"]) operator)))
     = None.
Proof.
  destruct (command_requires_connection OpForceOpen unplugged_world
              (sample_env [SerialManager.Line "VALVE_OPENED"]) operator
              eq_refl) as (Hout & Hsm & _).
  split; [exact Hout|]. now rewrite Hsm.
Defined.

(** ** The repository's tests, run on the model *)

Example test_get_alert_priority :
  get_alert_priority "pressure_high" = RulesEngine.CRITICAL
  /\ get_alert_priority "emergency_triggered" = RulesEngine.CRITICAL
  /\ get_alert_priority "valve_timeout" = RulesEngine.HIGH.
Proof. repeat split. Qed.

Example test_validate_telemetry_safe :
  validate_telemetry str_num defaults nominal_sample = Ok (true, []).
Proof. vm_compute. reflexivity. Qed.

Example test_validate_telemetry_critical_concentration :
  validate_telemetry str_num defaults
    (<["c_src" := PNum (NFloat (600 # 1))]> nominal_sample)
  = Ok (false, ["Source concentration critical: 600.0 > 500.0 units"]).
Proof. vm_compute. reflexivity. Qed.

Example test_can_open_valve_low_source_concentration :
  can_open_valve str_num defaults
    (<["c_src" := PNum (NFloat (5 # 1))]> nominal_sample)
  = Ok (false, "Source concentration too low: 5.0 < 10.0").
Proof. vm_compute. reflexivity. Qed.

Example test_parse_telemetry_not_telemetry json_loads now :
  parse_telemetry json_loads now "STATUS: VALVE_CLOSED" = None.
Proof. reflexivity. Qed.

(** One failing socket out of three: the other two receive the event and
    two stay registered. *)
Example test_broadcast_one_failure :
  let r := broadcast (fun c _ => negb (c =? 2)%nat)
             {| active_connections := {[1%nat; 2%nat; 3%nat]} |} ∅ in
  get_connection_count (fst r) = 2%nat /\ length (snd r) = 2%nat.
Proof. vm_compute. split; reflexivity. Qed.

(** * Further properties of the code *)

Set Warnings "-clear-no-such-hyp".

(** ** Rules engine *)

Lemma lower_ascii_idem (c : ascii) : lower_ascii (lower_ascii c) = lower_ascii c.
Proof. destruct c as [[] [] [] [] [] [] [] []]; reflexivity. Qed.

Lemma lower_idem (s : string) : lower (lower s) = lower s.
Proof.
  induction s as [|c s IH]; [reflexivity|]. cbn [lower].
  now rewrite lower_ascii_idem, IH.
Qed.

Lemma entry_nil (P : Prop) `{Decision P} (msg : string) :
  entry P msg = [] <-> ~ P.
Proof. unfold entry. destruct (decide P); split; intros; (done || congruence). Qed.

Lemma reading_cases (telemetry : gmap string pyval) (key : string) :
  (exists n, reading telemetry key = PNum n) \/ ~ numeric (reading telemetry key).
Proof.
  destruct (reading telemetry key) as [|n| | |] eqn:E;
    try (right; intros [n' Hn]; discriminate).
  left. now exists n.
Qed.

Lemma check_gt_not_numeric (x : pyval) (limit : Q) (msg : num -> string) :
  ~ numeric x -> check_gt x limit msg = Raise TypeError.
Proof.
  intros H. destruct x as [|n| | |]; try reflexivity.
  exfalso. apply H. now exists n.
Qed.

(** Either the four metrics are numbers, or the validation raises. *)
Lemma validate_telemetry_cases (fmt : num -> string) (self : RulesEngine.t)
    (telemetry : gmap string pyval) :
  (exists p1 p2 c_src c_dst,
     reading telemetry "p1" = PNum p1 /\ reading telemetry "p2" = PNum p2
     /\ reading telemetry "c_src" = PNum c_src
     /\ reading telemetry "c_dst" = PNum c_dst)
  \/ (~ metrics_numeric telemetry
      /\ validate_telemetry fmt self telemetry = Raise TypeError).
Proof.
  unfold metrics_numeric, validate_telemetry.
  fold (reading telemetry "p1") (reading telemetry "p2")
    (reading telemetry "c_src") (reading telemetry "c_dst").
  destruct (reading_cases telemetry "p1") as [[p1 H1]|N1].
  2:{ right. split; [tauto|]. now rewrite check_gt_not_numeric. }
  destruct (reading_cases telemetry "p2") as [[p2 H2]|N2].
  2:{ right. split; [tauto|]. rewrite H1, check_gt_entry. cbn [bind].
      now rewrite check_gt_not_numeric. }
  destruct (reading_cases telemetry "c_src") as [[c_src H3]|N3].
  2:{ right. split; [tauto|]. rewrite H1, H2, !check_gt_entry. cbn [bind].
      now rewrite check_gt_not_numeric. }
  destruct (reading_cases telemetry "c_dst") as [[c_dst H4]|N4].
  2:{ right. split; [tauto|]. rewrite H1, H2, H3, !check_gt_entry. cbn [bind].
      now rewrite check_gt_not_numeric. }
  left. now exists p1, p2, c_src, c_dst.
Qed.

(** X1. [can_open_valve] allows the opening exactly when none of its
    checks fires: the sample carries no emergency flag equal to 1, its
    four metrics are numbers, neither pressure is above the maximum,
    neither concentration is above the critical value, the source
    concentration is not below the minimum and the destination
    concentration is not above its maximum (each in the sense of
    Python's [>] and [<]); the reason is then "All checks passed". *)
Theorem can_open_valve_allowed_iff (fmt : num -> string)
    (self : RulesEngine.t) (telemetry : gmap string pyval) (reason : string) :
  can_open_valve fmt self telemetry = Ok (true, reason)
  <-> reason = "All checks passed" /\ ~ emergency telemetry
      /\ within_limits self telemetry.
Proof.
  split.
  - intros H.
    destruct (decide (py_eq_1 (reading telemetry "em") = true)) as [E|E].
    { apply py_eq_1_emergency in E.
      rewrite (can_open_valve_emergency fmt self _ E) in H. discriminate. }
    rewrite py_eq_1_emergency in E.
    rewrite (can_open_valve_no_emergency fmt self _ E) in H.
    destruct (validate_telemetry_cases fmt self telemetry)
      as [(p1 & p2 & c_src & c_dst & H1 & H2 & H3 & H4) | [_ Hr]].
    2:{ rewrite Hr in H. discriminate. }
    rewrite (validate_telemetry_entries fmt self _ _ _ _ _ H1 H2 H3 H4) in H.
    cbn [bind] in H.
    destruct (length _ =? 0)%nat eqn:Hlen; cbn [negb] in H; [|discriminate].
    apply Nat.eqb_eq, length_zero_iff_nil in Hlen.
    apply app_eq_nil in Hlen as [E1 Hlen]. apply app_eq_nil in Hlen as [E2 Hlen].
    apply app_eq_nil in Hlen as [E3 E4].
    apply entry_nil in E1, E2, E3, E4.
    rewrite H3, H4, !Qlt_bool_decide in H.
    destruct (decide (below c_src (min_src_concentration self))) as [B|B].
    { unfold below in B. rewrite bool_decide_eq_true_2 in H by exact B.
      discriminate. }
    unfold below in B. rewrite bool_decide_eq_false_2 in H by exact B.
    destruct (decide (exceeds c_dst (max_dst_concentration self))) as [D|D].
    { unfold exceeds in D. rewrite bool_decide_eq_true_2 in H by exact D.
      discriminate. }
    unfold exceeds in D. rewrite bool_decide_eq_false_2 in H by exact D.
    inversion H. split; [reflexivity|]. split; [exact E|].
    exists p1, p2, c_src, c_dst. tauto.
  - intros (-> & E & p1 & p2 & c_src & c_dst & H1 & H2 & H3 & H4
            & E1 & E2 & E3 & E4 & B & D).
    destruct (can_open_valve_order fmt self telemetry) as [_ Hrest].
    assert (Hv : validate_telemetry fmt self telemetry = Ok (true, [])).
    { rewrite (validate_telemetry_entries fmt self _ _ _ _ _ H1 H2 H3 H4).
      now rewrite !(proj2 (entry_nil _ _)) by assumption. }
    destruct (Hrest E true [] c_src c_dst Hv H3 H4) as (_ & _ & _ & Hpass).
    now apply Hpass.
Qed.

(** X2. [validate_telemetry] raises exactly when one of the four metrics
    is present and not a number, and the only exception is a
    [TypeError]; [can_open_valve] raises in the same case unless the
    emergency flag has already rejected the sample. *)
Theorem rules_engine_type_error (fmt : num -> string) (self : RulesEngine.t)
    (telemetry : gmap string pyval) :
  (validate_telemetry fmt self telemetry = Raise TypeError
   <-> ~ metrics_numeric telemetry)
  /\ (forall x, validate_telemetry fmt self telemetry = Raise x
                -> x = TypeError)
  /\ (can_open_valve fmt self telemetry = Raise TypeError
      <-> ~ emergency telemetry /\ ~ metrics_numeric telemetry)
  /\ (forall x, can_open_valve fmt self telemetry = Raise x -> x = TypeError).
Proof.
  destruct (validate_telemetry_cases fmt self telemetry)
    as [(p1 & p2 & c_src & c_dst & H1 & H2 & H3 & H4) | [N Hr]].
  - assert (Hn : metrics_numeric telemetry).
    { unfold metrics_numeric, numeric. rewrite H1, H2, H3, H4. eauto 10. }
    pose proof (validate_telemetry_entries fmt self _ _ _ _ _ H1 H2 H3 H4)
      as Hv. cbv zeta in Hv.
    assert (Hc : forall x, can_open_valve fmt self telemetry <> Raise x).
    { intros x H.
      destruct (decide (py_eq_1 (reading telemetry "em") = true)) as [E|E].
      - apply py_eq_1_emergency in E.
        rewrite (can_open_valve_emergency fmt self _ E) in H. discriminate.
      - rewrite py_eq_1_emergency in E.
        rewrite (can_open_valve_no_emergency fmt self _ E), Hv, H3, H4 in H.
        cbn [bind] in H.
        repeat match type of H with
               | context [if ?b then _ else _] => destruct b
               end; discriminate. }
    rewrite Hv. split; [split; [discriminate | tauto]|].
    split; [discriminate|]. split.
    + split; [intros Hx; now apply Hc in Hx | tauto].
    + intros x Hx. now apply Hc in Hx.
  - rewrite Hr. split; [tauto|]. split; [intros x H; now inversion H|].
    destruct (decide (py_eq_1 (reading telemetry "em") = true)) as [E|E].
    + apply py_eq_1_emergency in E.
      rewrite (can_open_valve_emergency fmt self _ E).
      split; [split; [discriminate | tauto] | discriminate].
    + rewrite py_eq_1_emergency in E.
      rewrite (can_open_valve_no_emergency fmt self _ E), Hr. cbn [bind].
      split; [tauto | intros x H; now inversion H].
Qed.

Lemma get_insert_other (telemetry : gmap string pyval) (key key' : string)
    (v dflt : pyval) :
  key <> key' -> get (<[key := v]> telemetry) key' dflt = get telemetry key' dflt.
Proof. intros H. unfold get. now rewrite lookup_insert_ne. Qed.

Lemma get_delete_other (telemetry : gmap string pyval) (key key' : string)
    (dflt : pyval) :
  key <> key' -> get (delete key telemetry) key' dflt = get telemetry key' dflt.
Proof. intros H. unfold get. now rewrite lookup_delete_ne. Qed.

(** X3. The verdict of [validate_telemetry] depends on the four metrics
    only: setting or removing any other key, the emergency flag among
    them, leaves the result as it is. *)
Theorem validate_telemetry_other_keys (fmt : num -> string)
    (self : RulesEngine.t) (telemetry : gmap string pyval) (key : string)
    (v : pyval) :
  key ∉ metric_keys ->
  validate_telemetry fmt self (<[key := v]> telemetry)
  = validate_telemetry fmt self telemetry
  /\ validate_telemetry fmt self (delete key telemetry)
     = validate_telemetry fmt self telemetry.
Proof.
  intros H. unfold metric_keys in H. rewrite !not_elem_of_cons in H.
  destruct H as (K1 & K2 & K3 & K4 & _). unfold validate_telemetry.
  now rewrite !get_insert_other, !get_delete_other by congruence.
Qed.

(** An emergency sample whose metrics are in range is reported safe. *)
Lemma validate_telemetry_other_keys_witness :
  validate_telemetry str_num defaults
    (<["em" := PNum (NInt 1)]> nominal_sample)
  = Ok (true, []).
Proof.
  destruct (validate_telemetry_other_keys str_num defaults nominal_sample
              "em" (PNum (NInt 1))) as [-> _].
  - unfold metric_keys. rewrite !not_elem_of_cons.
    repeat split; try discriminate. apply not_elem_of_nil.
  - vm_compute. reflexivity.
Defined.

Lemma priority_loop_lower (keywords : list string) (s : string) :
  priority_loop keywords (lower s) = priority_loop keywords s.
Proof.
  induction keywords as [|k ks IH]; [reflexivity|]. cbn [priority_loop].
  now rewrite lower_idem, IH.
Qed.

Lemma occurs_in_nocase_embed (keyword s pre post : string) :
  occurs_in_nocase keyword s -> occurs_in_nocase keyword (pre ++ s ++ post).
Proof.
  intros (a & mid & b & -> & H). exists (pre ++ a), mid, (b ++ post).
  split; [|exact H]. now rewrite !string_app_assoc.
Qed.

(** X4. The priority does not depend on letter case, and a text that
    contains a CRITICAL violation type is CRITICAL itself. *)
Theorem get_alert_priority_stable (violation_type pre post : string) :
  get_alert_priority (lower violation_type) = get_alert_priority violation_type
  /\ (get_alert_priority violation_type = RulesEngine.CRITICAL ->
      get_alert_priority (pre ++ violation_type ++ post)
      = RulesEngine.CRITICAL).
Proof.
  unfold get_alert_priority. split; [apply priority_loop_lower|].
  rewrite !priority_loop_critical. intros (k & Hk & H).
  exists k. split; [exact Hk|]. now apply occurs_in_nocase_embed.
Qed.

(** "High PRESSURE" inside a longer message. *)
Lemma get_alert_priority_stable_witness :
  get_alert_priority ("SAFETY: " ++ "High PRESSURE" ++ " at sensor 2")
  = RulesEngine.CRITICAL.
Proof.
  apply (get_alert_priority_stable "High PRESSURE" "SAFETY: " " at sensor 2").
  reflexivity.
Defined.

(** ** Serial manager *)

Lemma wait_response_mem (turns : list SerialManager.poll)
    (lines_received : list string) (response : string) :
  SerialManager.wait_response turns lines_received = Some response ->
  response ∈ lines_received \/ response ∈ lines_of turns.
Proof.
  revert lines_received.
  induction turns as [|[|r|] turns IH]; intros acc H;
    cbn [SerialManager.wait_response lines_of] in *.
  - destruct (decide (acc = [])); [discriminate|].
    left. apply last_Some in H as [l' ->]. set_solver.
  - now apply IH.
  - destruct (String.eqb r ""); cbn [negb] in H.
    + apply IH in H as [H|H]; [now left | right; now right].
    + destruct (startswith r "COMMAND_RECEIVED:"); cbn [negb] in H.
      * apply IH in H as [H|H]; [|right; now right].
        apply elem_of_app in H as [H|H]; [now left|].
        apply list_elem_of_singleton in H as ->. right. left.
      * inversion H. right. left.
  - discriminate.
Qed.

(** X5. A response of [send_command] is never the empty string and is
    always one of the lines the device sent after the command was
    written: a [None] is the only "no response". *)
Theorem send_command_returns_received (self : SerialManager.t)
    (command : string) (device : SerialManager.exchange) (response : string) :
  fst (SerialManager.send_command self command device) = Some response ->
  response <> ""
  /\ response ∈ lines_of (SerialManager.polls device)
  /\ SerialManager.is_connected self = true
  /\ SerialManager.write_ok device = true.
Proof.
  intros H. split; [now apply send_command_nonblank in H|].
  unfold SerialManager.send_command, SerialManager.is_connected in *.
  destruct (SerialManager.serial_conn self) as [conn|]; [|discriminate].
  destruct (SerialManager.is_open conn); [|discriminate].
  destruct (SerialManager.write_ok device); [|discriminate].
  cbn [fst] in H. apply wait_response_mem in H as [H|H]; [inversion H|].
  auto.
Qed.

Lemma send_command_returns_received_witness :
  "VALVE_OPENED" ∈ lines_of [SerialManager.Line "COMMAND_RECEIVED:OPEN";
                             SerialManager.Line "VALVE_OPENED"].
Proof.
  apply (send_command_returns_received open_port "OPEN"
           (answering [SerialManager.Line "COMMAND_RECEIVED:OPEN";
                       SerialManager.Line "VALVE_OPENED"]) "VALVE_OPENED").
  reflexivity.
Defined.

Lemma wait_response_fault (pre post : list SerialManager.poll)
    (lines_received : list string) :
  (forall line, line ∈ nonblank (lines_of pre) -> is_echo line = true) ->
  SerialManager.wait_response (pre ++ SerialManager.Fault :: post)
    lines_received = None.
Proof.
  revert lines_received.
  induction pre as [|[|r|] pre IH]; intros acc H;
    cbn [app SerialManager.wait_response lines_of] in *.
  - reflexivity.
  - now apply IH.
  - unfold nonblank in H. cbn [List.filter] in H.
    destruct (String.eqb r "") eqn:Hb; cbn [negb] in *.
    + now apply IH.
    + assert (He : is_echo r = true) by (apply H; left).
      unfold is_echo in He. rewrite He. cbn [negb]. apply IH.
      intros line Hl. apply H. now right.
  - reflexivity.
Qed.

(** X6. An I/O error on the port while [send_command] is still waiting
    (only blank lines and echoes received so far) makes it return [None]:
    the echoes already received are not returned. *)
Theorem send_command_io_error (self : SerialManager.t) (command : string)
    (write_ok : bool) (pre post : list SerialManager.poll) :
  (forall line, line ∈ nonblank (lines_of pre) -> is_echo line = true) ->
  fst (SerialManager.send_command self command
         {| SerialManager.write_ok := write_ok;
            SerialManager.polls := pre ++ SerialManager.Fault :: post |})
  = None.
Proof.
  intros H. unfold SerialManager.send_command.
  destruct (SerialManager.serial_conn self) as [conn|]; [|reflexivity].
  destruct (SerialManager.is_open conn); [|reflexivity].
  cbn [SerialManager.write_ok SerialManager.polls].
  destruct write_ok; [|reflexivity].
  cbn [fst]. now apply wait_response_fault.
Qed.

Lemma send_command_io_error_witness :
  fst (SerialManager.send_command open_port "OPEN"
         (answering [SerialManager.Line "COMMAND_RECEIVED:OPEN";
                     SerialManager.Fault;
                     SerialManager.Line "VALVE_OPENED"]))
  = None.
Proof.
  apply (send_command_io_error open_port "OPEN" true
           [SerialManager.Line "COMMAND_RECEIVED:OPEN"]
           [SerialManager.Line "VALVE_OPENED"]).
  intros line H. apply list_elem_of_singleton in H as ->. reflexivity.
Defined.

Lemma serial_disconnect_not_connected (self : SerialManager.t) :
  SerialManager.is_connected (SerialManager.disconnect self) = false.
Proof.
  unfold SerialManager.disconnect, SerialManager.is_connected.
  destruct (SerialManager.serial_conn self) as [conn|] eqn:E; [|now rewrite E].
  destruct (SerialManager.is_open conn) eqn:Ho; [reflexivity|].
  now rewrite E, Ho.
Qed.

Lemma serial_disconnect_idle (self : SerialManager.t) :
  SerialManager.is_connected self = false ->
  SerialManager.disconnect self = self.
Proof.
  unfold SerialManager.disconnect, SerialManager.is_connected.
  destruct (SerialManager.serial_conn self) as [conn|]; [|reflexivity].
  now intros ->.
Qed.

(** X7. After [disconnect] the link is never connected and the port
    name is kept; on a link that is not connected, and so the second
    time, [disconnect] changes nothing; a command sent afterwards is
    refused without a write. *)
Theorem serial_disconnect_spec (self : SerialManager.t) :
  SerialManager.is_connected (SerialManager.disconnect self) = false
  /\ SerialManager.port (SerialManager.disconnect self)
     = SerialManager.port self
  /\ (SerialManager.is_connected self = false ->
      SerialManager.disconnect self = self)
  /\ SerialManager.disconnect (SerialManager.disconnect self)
     = SerialManager.disconnect self
  /\ (forall command device,
        SerialManager.send_command (SerialManager.disconnect self) command
          device
        = (None, SerialManager.disconnect self)).
Proof.
  split; [apply serial_disconnect_not_connected|]. split.
  { unfold SerialManager.disconnect.
    destruct (SerialManager.serial_conn self) as [conn|]; [|reflexivity].
    now destruct (SerialManager.is_open conn). }
  split; [apply serial_disconnect_idle|]. split.
  - apply serial_disconnect_idle, serial_disconnect_not_connected.
  - intros command device.
    apply send_command_disconnected, serial_disconnect_not_connected.
Qed.

Lemma id_matches_known (p : SerialManager.ListPortInfo) :
  existsb (SerialManager.id_matches p) SerialManager.arduino_ids = true
  <-> known_arduino p.
Proof.
  unfold SerialManager.arduino_ids, SerialManager.id_matches, known_arduino.
  cbn [existsb fst snd]. rewrite orb_false_r, !andb_true_r.
  rewrite !orb_true_iff, andb_true_iff, !bool_decide_eq_true. tauto.
Qed.

Lemma scan_ports_none (ports : list SerialManager.ListPortInfo) :
  SerialManager.scan_ports ports = None
  <-> forall p, p ∈ ports -> ~ known_arduino p.
Proof.
  induction ports as [|q ports IH]; cbn [SerialManager.scan_ports].
  - split; [intros _ p Hp; inversion Hp | reflexivity].
  - destruct (existsb _ _) eqn:E.
    + split; [discriminate|]. intros H. exfalso.
      apply (H q); [left | now apply id_matches_known].
    + rewrite IH. split; intros H p Hp.
      * apply elem_of_cons in Hp as [-> | Hp]; [|now apply H].
        rewrite <- id_matches_known. congruence.
      * apply H. now right.
Qed.

Lemma scan_ports_first (pre post : list SerialManager.ListPortInfo)
    (p : SerialManager.ListPortInfo) :
  (forall q, q ∈ pre -> ~ known_arduino q) -> known_arduino p ->
  SerialManager.scan_ports (pre ++ p :: post) = Some (SerialManager.device p).
Proof.
  intros Hpre Hp. induction pre as [|q pre IH];
    cbn [app SerialManager.scan_ports].
  - apply id_matches_known in Hp. now rewrite Hp.
  - destruct (existsb _ _) eqn:E.
    + exfalso. apply (Hpre q); [left | now apply id_matches_known].
    + apply IH. intros r Hr. apply Hpre. now right.
Qed.

(** X8. [detect_arduino] returns the device of the first listed port
    that is a known board, whatever port is configured; with no known
    board it falls back to the configured port, and it finds nothing
    exactly when no known board is listed and the configured port is
    empty or "AUTO". *)
Theorem detect_arduino_spec (self : SerialManager.t)
    (ports : list SerialManager.ListPortInfo) :
  (forall pre p post,
     ports = (pre ++ p :: post)%list ->
     (forall q, q ∈ pre -> ~ known_arduino q) -> known_arduino p ->
     SerialManager.detect_arduino self ports = Some (SerialManager.device p))
  /\ ((forall p, p ∈ ports -> ~ known_arduino p) ->
      SerialManager.port self <> "" -> SerialManager.port self <> "AUTO" ->
      SerialManager.detect_arduino self ports = Some (SerialManager.port self))
  /\ (SerialManager.detect_arduino self ports = None
      <-> (forall p, p ∈ ports -> ~ known_arduino p)
          /\ (SerialManager.port self = "" \/ SerialManager.port self = "AUTO")).
Proof.
  unfold SerialManager.detect_arduino. split; [|split].
  - intros pre p post -> Hpre Hp. now rewrite (scan_ports_first _ _ _ Hpre Hp).
  - intros Hnone H1 H2. rewrite (proj2 (scan_ports_none _) Hnone).
    apply String.eqb_neq in H1, H2. now rewrite H1, H2.
  - destruct (SerialManager.scan_ports ports) as [dev|] eqn:E.
    + split; [discriminate|]. intros [H _].
      pose proof (proj2 (scan_ports_none _) H). congruence.
    + pose proof (proj1 (scan_ports_none _) E) as Hnone.
      destruct (String.eqb_spec (SerialManager.port self) "") as [E1|E1];
        destruct (String.eqb_spec (SerialManager.port self) "AUTO") as [E2|E2];
        cbn [negb andb];
        (split;
         [first [discriminate | intros _; split; [exact Hnone | tauto]]
         |first [reflexivity | intros [_ [?|?]]; contradiction]]).
Qed.

Lemma send_command_open (self : SerialManager.t) (conn : SerialManager.Serial)
    (command : string) (device : SerialManager.exchange) :
  SerialManager.serial_conn self = Some conn ->
  SerialManager.is_open conn = true ->
  snd (SerialManager.send_command self command device)
  = {| SerialManager.port := SerialManager.port self;
       SerialManager.serial_conn :=
         Some {| SerialManager.is_open := true;
                 SerialManager.written :=
                   (SerialManager.written conn
                    ++ (if SerialManager.write_ok device
                        then [command_line command] else []))%list |} |}.
Proof.
  intros Hc Ho. unfold SerialManager.send_command. rewrite Hc, Ho.
  destruct (SerialManager.write_ok device); cbn [snd].
  - reflexivity.
  - rewrite app_nil_r. destruct self as [p c]. cbn in *. subst c.
    destruct conn as [o w]. cbn in *. now subst o.
Qed.

(** The port name after the detection step of [connect]. *)
Lemma connect_outcome (self : SerialManager.t) (env : SerialManager.link) :
  exists name,
    (SerialManager.port self <> "" -> name <> "")
    /\ SerialManager.connect self env
       = if String.eqb name "" then
           (false, {| SerialManager.port := name;
                      SerialManager.serial_conn :=
                        SerialManager.serial_conn self |})
         else if negb (SerialManager.open_ok env)
                 || negb (SerialManager.flush_ok env) then
           (false, {| SerialManager.port := name;
                      SerialManager.serial_conn := None |})
         else
           (true, {| SerialManager.port := name;
                     SerialManager.serial_conn :=
                       Some {| SerialManager.is_open := true;
                               SerialManager.written :=
                                 handshake_lines env |} |}).
Proof.
  unfold SerialManager.connect.
  set (self1 := if String.eqb _ "true" then _ else self).
  assert (Hs : SerialManager.serial_conn self1 = SerialManager.serial_conn self
               /\ (SerialManager.port self <> "" ->
                   SerialManager.port self1 <> "")).
  { subst self1. destruct (String.eqb _ "true"); [|auto].
    destruct (SerialManager.detect_arduino _ _) as [d|]; [|auto].
    destruct (String.eqb d "") eqn:E; cbn [negb]; [auto|].
    apply String.eqb_neq in E. auto. }
  destruct Hs as [Hc Hp]. exists (SerialManager.port self1).
  split; [exact Hp|]. clearbody self1.
  destruct (String.eqb (SerialManager.port self1) "").
  { destruct self1 as [p c]. cbn in *. now subst c. }
  destruct (SerialManager.open_ok env); cbn [negb orb]; [|reflexivity].
  destruct (SerialManager.flush_ok env); cbn [negb]; [|reflexivity].
  set (s0 := {| SerialManager.port := SerialManager.port self1;
                SerialManager.serial_conn := _ |}).
  pose proof (send_command_open s0 _ "PING" (SerialManager.ping env)
                eq_refl eq_refl) as H1.
  destruct (SerialManager.send_command s0 "PING" _) as [r1 s1].
  cbn [snd] in H1. subst s1.
  match goal with
  | |- context [SerialManager.send_command ?s "TEST_MODE_ON" ?d] =>
      pose proof (send_command_open s _ "TEST_MODE_ON" d eq_refl eq_refl)
        as H2;
      destruct (SerialManager.send_command s "TEST_MODE_ON" d) as [r2 s2]
  end.
  cbn [snd] in H2. subst s2.
  match goal with
  | |- context [SerialManager.send_command ?s "RESET_EMERGENCY" ?d] =>
      pose proof (send_command_open s _ "RESET_EMERGENCY" d eq_refl eq_refl)
        as H3;
      destruct (SerialManager.send_command s "RESET_EMERGENCY" d) as [r3 s3]
  end.
  cbn [snd] in H3. subst s3. cbn [SerialManager.port SerialManager.written].
  unfold handshake_lines. now rewrite app_nil_l, <- app_assoc.
Qed.



(** X10. Called on a link that is down, [connect] returns whether the
    link is connected afterwards; it fails exactly when no port is
    named, the port does not open, or its input cannot be flushed, and
    a failure after a port was named leaves no connection object. *)
Theorem connect_result_is_connected (self : SerialManager.t)
    (env : SerialManager.link) :
  SerialManager.is_connected self = false ->
  fst (SerialManager.connect self env)
  = SerialManager.is_connected (snd (SerialManager.connect self env))
  /\ (fst (SerialManager.connect self env) = false ->
      SerialManager.port (snd (SerialManager.connect self env)) = ""
      \/ SerialManager.open_ok env = false
      \/ SerialManager.flush_ok env = false)
  /\ (SerialManager.port (snd (SerialManager.connect self env)) <> "" ->
      fst (SerialManager.connect self env) = false ->
      SerialManager.serial_conn (snd (SerialManager.connect self env)) = None).
Proof.
  intros Hd. destruct (connect_outcome self env) as (name & _ & ->).
  destruct (String.eqb name "") eqn:En.
  - apply String.eqb_eq in En. subst name. cbn [fst snd SerialManager.port].
    split; [|split; [auto | congruence]].
    unfold SerialManager.is_connected in *. cbn [SerialManager.serial_conn].
    now rewrite Hd.
  - destruct (SerialManager.open_ok env), (SerialManager.flush_ok env);
      cbn [negb orb fst snd]; repeat split; auto; discriminate.
Qed.

(** The port cannot be opened. *)
Lemma connect_result_is_connected_witness :
  fst (SerialManager.connect fresh_manager
         {| SerialManager.auto_detect := Some "false";
            SerialManager.comports := [];
            SerialManager.open_ok := false;
            SerialManager.flush_ok := true;
            SerialManager.ping := answering [];
            SerialManager.test_mode_on := answering [];
            SerialManager.reset_emergency := answering [] |})
  = false.
Proof.
  destruct (connect_result_is_connected fresh_manager
              {| SerialManager.auto_detect := Some "false";
                 SerialManager.comports := [];
                 SerialManager.open_ok := false;
                 SerialManager.flush_ok := true;
                 SerialManager.ping := answering [];
                 SerialManager.test_mode_on := answering [];
                 SerialManager.reset_emergency := answering [] |} eq_refl)
    as (-> & _ & _).
  reflexivity.
Defined.

Section ParsedValues.

Variable json_loads : string -> option pyval.

Lemma parse_telemetry_some_inv (now : Z) (line : string) (data : pyval) :
  SerialManager.parse_telemetry json_loads now line = Some data ->
  startswith line "TELEMETRY:" = true
  /\ exists parsed,
       json_loads (SerialManager.json_str line) = Some parsed
       /\ ((exists d, parsed = PDict d
                      /\ data = PDict (match d !! "t" with
                                       | Some _ => d
                                       | None => <["t" := PNum (NInt now)]> d
                                       end))
           \/ (data = parsed
               /\ ((exists s, parsed = PStr s /\ contains "t" s = true)
                   \/ (exists l, parsed = PList l /\ PStr "t" ∈ l)))).
Proof.
  unfold SerialManager.parse_telemetry.
  destruct (startswith line "TELEMETRY:"); cbn [negb]; [|discriminate].
  destruct (json_loads _) as [parsed|]; [|discriminate].
  intros H. split; [reflexivity|]. exists parsed. split; [reflexivity|].
  destruct parsed as [|n|s|l|d]; cbn [SerialManager.t_not_in] in H;
    try discriminate.
  - right. destruct (contains "t" s) eqn:E; cbn [negb] in H; [|discriminate].
    inversion H. split; [reflexivity|]. left. now exists s.
  - right. destruct (existsb _ l) eqn:E; cbn [negb] in H; [|discriminate].
    inversion H. split; [reflexivity|]. right. exists l. split; [reflexivity|].
    apply existsb_exists in E as (x & Hx & Ht). apply list_elem_of_In in Hx.
    destruct x; try discriminate. apply String.eqb_eq in Ht. now subst.
  - left. exists d. split; [reflexivity|].
    destruct (d !! "t") as [v|] eqn:E.
    + rewrite bool_decide_eq_false_2 in H by congruence. now inversion H.
    + rewrite bool_decide_eq_true_2 in H by reflexivity. now inversion H.
Qed.

Lemma parse_telemetry_holds_t (now : Z) (line : string) (data : pyval) :
  SerialManager.parse_telemetry json_loads now line = Some data ->
  holds_t data.
Proof.
  intros H. apply parse_telemetry_some_inv in H
    as (_ & parsed & _ & [(d & -> & ->) | (-> & [(s & -> & Hs) | (l & -> & Hl)])]).
  - cbn [holds_t]. destruct (d !! "t") as [v|] eqn:E.
    + rewrite E. eauto.
    + rewrite lookup_insert_eq. eauto.
  - cbn [holds_t]. now apply contains_occurs.
  - exact Hl.
Qed.

Lemma holds_t_truthy (data : pyval) : holds_t data -> py_truthy data = true.
Proof.
  destruct data as [|n|s|l|d]; cbn [holds_t py_truthy]; try tauto.
  - intros (pre & post & ->). destruct pre; push_app; reflexivity.
  - intros H. destruct l; [inversion H | reflexivity].
  - intros [v Hv]. destruct (map_to_list d) eqn:E; [|reflexivity].
    apply map_to_list_empty_iff in E. subst d. now rewrite lookup_empty in Hv.
Qed.

(** X11. A record returned by [parse_telemetry] always has a [t]: the
    one of the payload when it has one, which is never overwritten, and
    the current time otherwise; every other key is the payload's. *)
Theorem parse_telemetry_timestamp (now : Z) (line : string)
    (sample : gmap string pyval) :
  SerialManager.parse_telemetry json_loads now line = Some (PDict sample) ->
  startswith line "TELEMETRY:" = true
  /\ exists payload,
       json_loads (SerialManager.json_str line) = Some (PDict payload)
       /\ sample !! "t" = Some (default (PNum (NInt now)) (payload !! "t"))
       /\ forall key, key <> "t" -> sample !! key = payload !! key.
Proof.
  intros H. apply parse_telemetry_some_inv in H
    as (Hp & parsed & Hj & [(d & -> & Hd) | (<- & [(s & Hs & _) | (l & Hl & _)])]);
    try discriminate.
  split; [exact Hp|]. exists d. split; [exact Hj|].
  inversion Hd as [Hs]. clear Hd.
  destruct (d !! "t") as [v|] eqn:E.
  - rewrite E. split; [reflexivity | reflexivity].
  - split; [apply lookup_insert_eq|]. intros key Hk.
    now rewrite lookup_insert_ne by congruence.
Qed.


End ParsedValues.

Lemma parse_telemetry_timestamp_witness :
  exists payload,
    json_loads_sample (SerialManager.json_str "TELEMETRY:{}")
    = Some (PDict payload)
    /\ (<["t" := PNum (NInt 1700000000)]> ∅ : gmap string pyval) !! "t"
       = Some (default (PNum (NInt 1700000000)) (payload !! "t")).
Proof.
  destruct (parse_telemetry_timestamp json_loads_sample 1700000000
              "TELEMETRY:{}" (<["t" := PNum (NInt 1700000000)]> ∅) eq_refl)
    as (_ & payload & Hj & Ht & _).
  exists payload. split; [exact Hj | exact Ht].
Defined.


Section Reading.

Variable json_loads : string -> option pyval.

Lemma read_line_calls (line : string) (now : Z) :
  omap dispatched_call (SerialManager.read_line json_loads true line now)
  = option_list ((fun d => (d, line))
                   <$> SerialManager.parse_telemetry json_loads now line).
Proof.
  unfold SerialManager.read_line.
  destruct (String.eqb_spec line "") as [->|Hne]; [reflexivity|].
  destruct (startswith line "TELEMETRY:") eqn:Hp.
  - destruct (SerialManager.parse_telemetry json_loads now line) as [d|] eqn:E;
      [|reflexivity].
    apply parse_telemetry_holds_t, holds_t_truthy in E. now rewrite E.
  - now rewrite parse_telemetry_requires_prefix.
Qed.

Lemma read_line_infos (has_callback : bool) (line : string) (now : Z) :
  omap informed_line
    (SerialManager.read_line json_loads has_callback line now)
  = if negb (String.eqb line "") && negb (startswith line "TELEMETRY:")
    then [line] else [].
Proof.
  unfold SerialManager.read_line.
  destruct (String.eqb line ""); [reflexivity|].
  destruct (startswith line "TELEMETRY:"); [|reflexivity].
  destruct (SerialManager.parse_telemetry json_loads now line); [|reflexivity].
  now destruct (py_truthy _ && has_callback).
Qed.

Lemma read_iteration_up (has_callback : bool) (self : SerialManager.t)
    (events : list SerialManager.loop_event) (it : SerialManager.iteration) :
  SerialManager.is_connected self = true ->
  SerialManager.turn it <> SerialManager.Fault ->
  SerialManager.read_iteration json_loads has_callback (self, events) it
  = (self,
     (events ++ match line_of_turn it with
                | Some line =>
                    SerialManager.read_line json_loads has_callback line
                      (SerialManager.clock it)
                | None => []
                end)%list).
Proof.
  intros Hc Hf. unfold SerialManager.read_iteration, line_of_turn.
  rewrite Hc. cbn [negb].
  destruct (SerialManager.turn it); [now rewrite app_nil_r | reflexivity |].
  congruence.
Qed.

Lemma read_loop_up (has_callback : bool) (self : SerialManager.t)
    (turns : list SerialManager.iteration)
    (events : list SerialManager.loop_event) :
  SerialManager.is_connected self = true ->
  Forall (fun it => SerialManager.turn it <> SerialManager.Fault) turns ->
  foldl (SerialManager.read_iteration json_loads has_callback)
    (self, events) turns
  = (self,
     (events
      ++ mbind (fun it =>
                  match line_of_turn it with
                  | Some line =>
                      SerialManager.read_line json_loads has_callback line
                        (SerialManager.clock it)
                  | None => []
                  end) turns)%list).
Proof.
  intros Hc Hf. revert events.
  induction Hf as [|it turns Hit Hf IH]; intros events; cbn [foldl].
  - now rewrite app_nil_r.
  - rewrite read_iteration_up by assumption. rewrite IH.
    now rewrite <- app_assoc.
Qed.

(** X13. While the link stays up and the callback is set, the read loop
    calls the callback once for each line that [parse_telemetry]
    accepts, with the parsed value and the line, in the order of
    arrival; the lines it logs as messages of the device are, in order,
    the lines that are not blank and do not start with "TELEMETRY:"; a
    line that starts with "TELEMETRY:" and is not accepted gives neither
    a call nor a message; the manager is left as it was. *)
Theorem read_loop_dispatch_order (self : SerialManager.t)
    (turns : list SerialManager.iteration) :
  SerialManager.is_connected self = true ->
  Forall (fun it => SerialManager.turn it <> SerialManager.Fault) turns ->
  let r := SerialManager.read_loop json_loads true self turns in
  fst r = self
  /\ omap dispatched_call (snd r)
     = omap (fun it =>
               line ← line_of_turn it;
               data ← SerialManager.parse_telemetry json_loads
                        (SerialManager.clock it) line;
               Some (data, line)) turns
  /\ omap informed_line (snd r)
     = List.filter
         (fun line => negb (String.eqb line "")
                      && negb (startswith line "TELEMETRY:"))
         (omap line_of_turn turns).
Proof.
  intros Hc Hf. cbv zeta. unfold SerialManager.read_loop.
  rewrite read_loop_up by assumption. cbn [fst snd app].
  split; [reflexivity|]. clear Hc Hf.
  induction turns as [|it turns [IH1 IH2]]; [split; reflexivity|].
  cbn [mbind list_bind omap list_omap]. rewrite !omap_app, IH1, IH2.
  destruct (line_of_turn it) as [line|]; cbn [mbind option_bind];
    [|split; reflexivity].
  rewrite read_line_calls, read_line_infos. cbn [List.filter]. split.
  - now destruct (SerialManager.parse_telemetry _ _ _).
  - now destruct (negb _ && negb _).
Qed.

Lemma read_iteration_events (has_callback : bool) (self : SerialManager.t)
    (events : list SerialManager.loop_event) (it : SerialManager.iteration) :
  exists self' line,
    SerialManager.read_iteration json_loads has_callback (self, events) it
    = (self', events)
    \/ (SerialManager.turn it = SerialManager.Line line
        /\ SerialManager.read_iteration json_loads has_callback
             (self, events) it
           = (self',
              (events ++ SerialManager.read_line json_loads has_callback
                           line (SerialManager.clock it))%list)).
Proof.
  unfold SerialManager.read_iteration.
  destruct (if negb (SerialManager.is_connected self)
            then SerialManager.connect self (SerialManager.reconnect it)
            else (true, self)) as [ready self1].
  destruct ready; cbn [negb].
  - destruct (SerialManager.turn it) as [|line|].
    + exists self1, "". now left.
    + exists self1, line. now right.
    + exists (SerialManager.disconnect self1), "". now left.
  - exists self1, "". now left.
Qed.

(** X14. In every run of the read loop, with I/O errors and
    reconnections, the callback is only ever called for a line of some
    turn that starts with "TELEMETRY:", with the value [parse_telemetry]
    returned for it, which holds a [t]; and only lines that are not
    blank and do not start with "TELEMETRY:" are logged. *)
Theorem read_loop_events_sound (has_callback : bool)
    (self : SerialManager.t) (turns : list SerialManager.iteration) :
  Forall
    (fun ev =>
       match ev with
       | SerialManager.Dispatched data line =>
           has_callback = true /\ startswith line "TELEMETRY:" = true
           /\ holds_t data
           /\ exists it, it ∈ turns
                /\ SerialManager.turn it = SerialManager.Line line
                /\ SerialManager.parse_telemetry json_loads
                     (SerialManager.clock it) line = Some data
       | SerialManager.Informed line =>
           line <> "" /\ startswith line "TELEMETRY:" = false
           /\ exists it, it ∈ turns
                /\ SerialManager.turn it = SerialManager.Line line
       end)
    (snd (SerialManager.read_loop json_loads has_callback self turns)).
Proof.
  unfold SerialManager.read_loop.
  assert (G : forall done todo self events,
    Forall
      (fun ev =>
         match ev with
         | SerialManager.Dispatched data line =>
             has_callback = true /\ startswith line "TELEMETRY:" = true
             /\ holds_t data
             /\ exists it, it ∈ (done ++ todo)%list
                  /\ SerialManager.turn it = SerialManager.Line line
                  /\ SerialManager.parse_telemetry json_loads
                       (SerialManager.clock it) line = Some data
         | SerialManager.Informed line =>
             line <> "" /\ startswith line "TELEMETRY:" = false
             /\ exists it, it ∈ (done ++ todo)%list
                  /\ SerialManager.turn it = SerialManager.Line line
         end) events ->
    Forall
      (fun ev =>
         match ev with
         | SerialManager.Dispatched data line =>
             has_callback = true /\ startswith line "TELEMETRY:" = true
             /\ holds_t data
             /\ exists it, it ∈ (done ++ todo)%list
                  /\ SerialManager.turn it = SerialManager.Line line
                  /\ SerialManager.parse_telemetry json_loads
                       (SerialManager.clock it) line = Some data
         | SerialManager.Informed line =>
             line <> "" /\ startswith line "TELEMETRY:" = false
             /\ exists it, it ∈ (done ++ todo)%list
                  /\ SerialManager.turn it = SerialManager.Line line
         end)
      (snd (foldl (SerialManager.read_iteration json_loads has_callback)
              (self, events) todo))).
  { intros done todo. revert done.
    induction todo as [|it todo IH]; intros done self0 events Hev;
      cbn [foldl]; [exact Hev|].
    destruct (read_iteration_events has_callback self0 events it)
      as (self' & line & [-> | [Hl ->]]).
    - replace (done ++ it :: todo)%list with ((done ++ [it]) ++ todo)%list
        in * by now rewrite <- app_assoc.
      now apply IH.
    - replace (done ++ it :: todo)%list with ((done ++ [it]) ++ todo)%list
        in * by now rewrite <- app_assoc.
      apply IH. apply Forall_app. split; [exact Hev|].
      assert (Hin : it ∈ ((done ++ [it]) ++ todo)%list) by set_solver.
      unfold SerialManager.read_line.
      destruct (String.eqb_spec line "") as [->|Hne]; [constructor|].
      destruct (startswith line "TELEMETRY:") eqn:Hp.
      + destruct (SerialManager.parse_telemetry _ _ _) as [d|] eqn:E;
          [|constructor].
        destruct (py_truthy d && has_callback) eqn:Ht; [|constructor].
        apply andb_true_iff in Ht as [_ ->].
        constructor; [|constructor].
        repeat split; eauto using parse_telemetry_holds_t.
      + constructor; [|constructor]. repeat split; eauto. }
  apply (G [] turns self []). constructor.
Qed.

(** X15. An I/O error while reading drops the connection and calls
    nothing; and while the link is down and [connect] fails, a turn
    reads nothing from the port, whatever is waiting there. *)
Theorem read_loop_link_down (has_callback : bool) (self : SerialManager.t)
    (events : list SerialManager.loop_event) (it : SerialManager.iteration) :
  (SerialManager.is_connected self = true ->
   SerialManager.turn it = SerialManager.Fault ->
   SerialManager.read_iteration json_loads has_callback (self, events) it
   = (SerialManager.disconnect self, events)
   /\ SerialManager.is_connected (SerialManager.disconnect self) = false)
  /\ (SerialManager.is_connected self = false ->
      fst (SerialManager.connect self (SerialManager.reconnect it)) = false ->
      SerialManager.read_iteration json_loads has_callback (self, events) it
      = (snd (SerialManager.connect self (SerialManager.reconnect it)),
         events)
      /\ SerialManager.is_connected
           (snd (SerialManager.connect self (SerialManager.reconnect it)))
         = false).
Proof.
  split.
  - intros Hc Hf. split; [|apply serial_disconnect_not_connected].
    unfold SerialManager.read_iteration. now rewrite Hc, Hf.
  - intros Hc Hf. unfold SerialManager.read_iteration. rewrite Hc. cbn [negb].
    destruct (connect_outcome self (SerialManager.reconnect it))
      as (name & _ & Ho).
    destruct (SerialManager.connect self (SerialManager.reconnect it))
      as [ready self1] eqn:E. cbn [fst snd] in *. subst ready. cbn [negb].
    split; [reflexivity|].
    destruct (String.eqb name "").
    + inversion Ho. unfold SerialManager.is_connected in *.
      cbn [SerialManager.serial_conn]. exact Hc.
    + destruct (negb _ || negb _); inversion Ho. reflexivity.
Qed.

End Reading.

(** Two telemetry lines around a device message, on a link that is up. *)
Lemma read_loop_dispatch_order_witness :
  omap dispatched_call
    (snd (SerialManager.read_loop json_loads_sample true open_port
            [reading_turn 10 (SerialManager.Line "TELEMETRY:{}");
             reading_turn 11 (SerialManager.Line "EVENT: reset");
             reading_turn 12 SerialManager.Idle;
             reading_turn 13 (SerialManager.Line "TELEMETRY:{}")]))
  = [(PDict (<["t" := PNum (NInt 10)]> ∅), "TELEMETRY:{}");
     (PDict (<["t" := PNum (NInt 13)]> ∅), "TELEMETRY:{}")].
Proof.
  destruct (read_loop_dispatch_order json_loads_sample open_port
              [reading_turn 10 (SerialManager.Line "TELEMETRY:{}");
               reading_turn 11 (SerialManager.Line "EVENT: reset");
               reading_turn 12 SerialManager.Idle;
               reading_turn 13 (SerialManager.Line "TELEMETRY:{}")])
    as (_ & -> & _).
  - reflexivity.
  - repeat constructor; discriminate.
  - reflexivity.
Defined.

(** ** Broadcast hub *)

Lemma broadcast_sent (send_json : nat -> gmap string pyval -> bool)
    (self : ConnectionManager.t) (message : gmap string pyval) (c : nat)
    (m : gmap string pyval) :
  (c, m) ∈ snd (broadcast send_json self message)
  <-> c ∈ active_connections self /\ send_json c message = true /\ m = message.
Proof.
  rewrite broadcast_eq. cbn [snd]. rewrite list_elem_of_fmap. split.
  - intros (c' & Heq & H). inversion Heq; subst.
    apply list_elem_of_filter in H as [Hok H]. apply elem_of_elements in H.
    auto.
  - intros (Hc & Hok & ->). exists c. split; [reflexivity|].
    apply list_elem_of_filter. split; [exact Hok|]. now apply elem_of_elements.
Qed.

Lemma broadcast_active (send_json : nat -> gmap string pyval -> bool)
    (self : ConnectionManager.t) (message : gmap string pyval) (c : nat) :
  c ∈ active_connections (fst (broadcast send_json self message))
  <-> c ∈ active_connections self /\ send_json c message = true.
Proof.
  rewrite broadcast_eq. cbn [fst active_connections]. unfold failing.
  rewrite elem_of_difference, elem_of_filter.
  destruct (send_json c message); intuition congruence.
Qed.


Lemma hub_eq (a b : ConnectionManager.t) :
  active_connections a = active_connections b -> a = b.
Proof. destruct a, b. cbn. now intros ->. Qed.

(** X16. Registration is a set insertion (once the socket is accepted):
    registering a registered socket changes nothing, a new socket raises
    the count by one, and unregistering it again restores the hub;
    unregistering a socket that is not registered changes nothing. *)
Theorem hub_register_unregister (self : ConnectionManager.t) (ws : nat) :
  (ws ∈ active_connections self ->
   ConnectionManager.connect self ws = self
   /\ S (get_connection_count (ConnectionManager.disconnect self ws))
      = get_connection_count self)
  /\ (ws ∉ active_connections self ->
      get_connection_count (ConnectionManager.connect self ws)
      = S (get_connection_count self)
      /\ ConnectionManager.disconnect (ConnectionManager.connect self ws) ws
         = self
      /\ ConnectionManager.disconnect self ws = self)
  /\ ConnectionManager.connect (ConnectionManager.connect self ws) ws
     = ConnectionManager.connect self ws
  /\ ws ∉ active_connections (ConnectionManager.disconnect self ws).
Proof.
  unfold ConnectionManager.connect, ConnectionManager.disconnect,
    get_connection_count.
  cbn [active_connections]. split; [|split; [|split]].
  - intros H. split; [apply hub_eq; cbn; set_solver|].
    rewrite size_difference by set_solver. rewrite size_singleton.
    assert (size (active_connections self) <> 0)
      by (apply size_non_empty_iff; set_solver).
    lia.
  - intros H. split; [|split].
    + rewrite size_union by set_solver. now rewrite size_singleton.
    + apply hub_eq. cbn. set_solver.
    + apply hub_eq. cbn. set_solver.
  - apply hub_eq. cbn. set_solver.
  - set_solver.
Qed.

(** X17. [send_personal_message] delivers to the socket it is given,
    registered or not, without registering it; when the delivery fails
    that socket alone is unregistered and nothing is delivered. *)
Theorem unicast_failure_unregisters
    (send_json : nat -> gmap string pyval -> bool)
    (self : ConnectionManager.t) (message : gmap string pyval) (ws : nat) :
  let r := send_personal_message send_json self message ws in
  (send_json ws message = true -> r = (self, [(ws, message)]))
  /\ (send_json ws message = false ->
      snd r = []
      /\ (ws ∉ active_connections (fst r))
      /\ (forall c, c <> ws ->
            (c ∈ active_connections (fst r) <-> c ∈ active_connections self))).
Proof.
  cbv zeta. unfold send_personal_message. split; intros ->; [reflexivity|].
  cbn [fst snd]. unfold ConnectionManager.disconnect. cbn [active_connections].
  split; [reflexivity|]. split; [set_solver|]. intros c Hc. set_solver.
Qed.

(** X18. A socket unregistered by a broadcast is not sent the next
    one. After two broadcasts in a row, each with its own deliveries,
    the second message has reached exactly the sockets that were
    registered at the start and accepted both messages, exactly those
    are still registered, and the count has not grown. *)
Theorem broadcast_twice (send_first send_second : nat -> gmap string pyval -> bool)
    (self : ConnectionManager.t) (m1 m2 : gmap string pyval) :
  let first := broadcast send_first self m1 in
  let second := broadcast send_second (fst first) m2 in
  (forall c, c ∈ active_connections (fst second)
             <-> c ∈ active_connections self
                 /\ send_first c m1 = true /\ send_second c m2 = true)
  /\ (forall c m, (c, m) ∈ snd second
                  <-> c ∈ active_connections self
                      /\ send_first c m1 = true /\ send_second c m2 = true
                      /\ m = m2)
  /\ (size (active_connections (fst second))
      <= size (active_connections (fst first)))%nat
  /\ (size (active_connections (fst first))
      <= size (active_connections self))%nat.
Proof.
  cbv zeta. split; [|split; [|split]].
  - intros c. rewrite !broadcast_active. tauto.
  - intros c m. rewrite broadcast_sent, broadcast_active. tauto.
  - apply subseteq_size. intros c. rewrite broadcast_active. tauto.
  - apply subseteq_size. intros c. rewrite broadcast_active. tauto.
Qed.

(** ** Valve API *)

Lemma log_operation_ops w e command user result message :
  valve_operations (log_operation w e command user result message)
  = (valve_operations w
     ++ [{| Valve.ts_utc := Valve.now e; command := command;
            issuer_user := username user; result := result;
            op_message := message |}])%list.
Proof.
  unfold log_operation. now destruct (broadcast_valve_event _ _ _).
Qed.

Lemma log_operation_alerts w e command user result message :
  Valve.system_alerts (log_operation w e command user result message)
  = Valve.system_alerts w.
Proof.
  unfold log_operation. now destruct (broadcast_valve_event _ _ _).
Qed.

Lemma send_eq w e command :
  send w e command
  = (answer w e command,
     {| serial_manager :=
          snd (SerialManager.send_command (serial_manager w) command
                 (device e));
        Valve.ws_manager := Valve.ws_manager w;
        valve_operations := valve_operations w;
        Valve.system_alerts := Valve.system_alerts w;
        Valve.delivered := Valve.delivered w |}).
Proof.
  unfold send, answer. now destruct (SerialManager.send_command _ _ _).
Qed.

(** Unfolds an operation down to the answer of the device. *)
Ltac open_op :=
  unfold run, open_valve, close_valve, force_open_valve, Valve.reset_emergency,
    enable_test_mode, disable_test_mode, test_mode, respond;
  rewrite ?send_eq.

(** Splits on every test an unfolded operation makes. *)
Ltac split_op :=
  repeat match goal with
         | |- context [if ?b then _ else _] => destruct b eqn:?
         | |- context [match ?x with Some _ => _ | None => _ end] =>
             destruct x eqn:?
         | |- context [match ?x with Ok _ => _ | Raise _ => _ end] =>
             destruct x eqn:?
         end.

(** X19. Every call of open, close, force-open and reset-emergency adds
    exactly one entry to the operation log, on every path, with the
    command, the user and the time of the call; a test-mode call adds
    one only when it succeeds, so its failures leave no trace. Earlier
    entries are kept. *)
Theorem valve_operation_log (op : operation) (w : world) (e : env)
    (user : User) :
  exists entries,
    valve_operations (snd (run op w e user))
    = (valve_operations w ++ entries)%list
    /\ Forall (fun o => command o = op_command op
                        /\ issuer_user o = username user
                        /\ Valve.ts_utc o = Valve.now e) entries
    /\ (is_test_mode op = false -> length entries = 1%nat)
    /\ (is_test_mode op = true ->
        (exists r, fst (run op w e user) = Return r) /\ length entries = 1%nat
        \/ (exists code detail,
              fst (run op w e user) = HTTPException code detail)
           /\ entries = []).
Proof.
  destruct op; open_op; unfold truthy; split_op; cbn [fst snd];
    rewrite ?log_operation_ops; cbn [valve_operations];
    try (eexists [_]; split; [reflexivity|];
         split; [repeat constructor|];
         split; [reflexivity || discriminate|];
         first [discriminate | intros _; left; eauto]);
    try (exists []; split; [now rewrite app_nil_r|];
         split; [constructor|]; split; [discriminate|];
         intros _; right; eauto).
Qed.

(** X20. When the link is connected and the device gives no answer
    (nothing but blank lines before the timeout, an I/O error, or a
    failed write), each of the six operations ends with the error 503
    "No response from Arduino"; the command is not sent again. *)
Theorem valve_no_response (op : operation) (w : world) (e : env)
    (user : User) :
  SerialManager.is_connected (serial_manager w) = true ->
  answer w e (op_command op) = None ->
  fst (run op w e user) = HTTPException 503 "No response from Arduino"
  /\ serial_manager (snd (run op w e user))
     = snd (SerialManager.send_command (serial_manager w) (op_command op)
              (device e)).
Proof.
  intros Hc Ha.
  destruct op; open_op; cbn [op_command] in Ha; rewrite Hc, Ha;
    cbn [negb truthy fst snd]; rewrite ?log_operation_serial;
    split; reflexivity.
Qed.

(** A device that stays silent after CLOSE. *)
Lemma valve_no_response_witness :
  fst (run OpClose sample_world (sample_env [SerialManager.Idle]) operator)
  = HTTPException 503 "No response from Arduino"
  /\ SerialManager.serial_conn
       (serial_manager
          (snd (run OpClose sample_world (sample_env [SerialManager.Idle])
                  operator)))
     = Some {| SerialManager.is_open := true;
               SerialManager.written := [command_line "CLOSE"] |}.
Proof.
  destruct (valve_no_response OpClose sample_world
              (sample_env [SerialManager.Idle]) operator eq_refl eq_refl)
    as [H1 H2].
  split; [exact H1|]. now rewrite H2.
Defined.

Lemma force_open_answered w e user response :
  SerialManager.is_connected (serial_manager w) = true ->
  answer w e "FORCE_OPEN" = Some response ->
  exists w1,
    Valve.system_alerts w1 = Valve.system_alerts w
    /\ force_open_valve w e user
       = if contains "VALVE_OPENED" response then
           (Escapes AttributeError,
            log_operation w1 e "FORCE_OPEN" user "SUCCESS" "Valve force-opened")
         else
           (respond false response None,
            log_operation w1 e "FORCE_OPEN" user "FAILED" response).
Proof.
  intros Hc Ha. unfold force_open_valve. rewrite Hc, send_eq, Ha. cbn [negb].
  eexists. split; [|apply send_command_nonblank in Ha;
                    apply String.eqb_neq in Ha; rewrite Ha; reflexivity].
  reflexivity.
Qed.

(** X21. [force_open_valve] never returns a success: when the device
    answers with "VALVE_OPENED" the operation is logged as SUCCESS and
    then an [AttributeError] escapes from the creation of the alert (the
    priority is passed as a plain string), so no response is returned
    and no alert is stored; any other answer is returned as a failure
    and logged as FAILED. *)
Theorem force_open_never_succeeds (w : world) (e : env) (user : User) :
  (forall r, fst (force_open_valve w e user) = Return r ->
             success r = false /\ valve_state r = None)
  /\ (SerialManager.is_connected (serial_manager w) = true ->
      forall response,
        answer w e "FORCE_OPEN" = Some response ->
        (occurs_in "VALVE_OPENED" response ->
         fst (force_open_valve w e user) = Escapes AttributeError
         /\ logged_result (snd (force_open_valve w e user)) = Some "SUCCESS"
         /\ Valve.system_alerts (snd (force_open_valve w e user))
            = Valve.system_alerts w)
        /\ (~ occurs_in "VALVE_OPENED" response ->
            fst (force_open_valve w e user) = respond false response None
            /\ logged_result (snd (force_open_valve w e user))
               = Some "FAILED")).
Proof.
  split.
  - intros r. open_op. split_op; cbn [fst]; intros H; try discriminate;
      inversion H; split; reflexivity.
  - intros Hc response Ha.
    destruct (force_open_answered w e user response Hc Ha) as (w1 & Hal & ->).
    split; intros H.
    + apply contains_occurs in H. rewrite H. cbn [fst snd].
      now rewrite log_operation_result, log_operation_alerts.
    + apply contains_false in H. rewrite H. cbn [fst snd].
      now rewrite log_operation_result.
Qed.

(** X22. Whenever an operation returns a response, its success flag
    agrees with the log (true exactly when the entry says SUCCESS), and
    a valve state is reported only with a success. *)
Theorem valve_response_consistent (op : operation) (w : world) (e : env)
    (user : User) (r : ValveCommandResponse) :
  fst (run op w e user) = Return r ->
  (success r = true
   <-> logged_result (snd (run op w e user)) = Some "SUCCESS")
  /\ (valve_state r <> None -> success r = true).
Proof.
  destruct op; open_op; unfold truthy; split_op; cbn [fst snd];
    intros H; try discriminate; inversion H; subst r;
    rewrite ?log_operation_result; cbn [success valve_state];
    (split; [split; (reflexivity || discriminate) | congruence]).
Qed.

(** An OPEN that the device rejects. *)
Lemma valve_response_consistent_witness :
  logged_result
    (snd (run OpOpen sample_world
            (sample_env [SerialManager.Line "ERROR: Emergency mode active"])
            operator))
  <> Some "SUCCESS".
Proof.
  intros H.
  apply (valve_response_consistent OpOpen sample_world
           (sample_env [SerialManager.Line "ERROR: Emergency mode active"])
           operator
           {| success := false; message := "ERROR: Emergency mode active";
              valve_state := None |} eq_refl) in H.
  discriminate.
Defined.

(** X23. The test-mode operations take any answer that is not empty as
    a success, an error text of the device included: the answer is not
    inspected. *)
Theorem test_mode_any_answer (w : world) (e : env) (user : User)
    (response : string) :
  SerialManager.is_connected (serial_manager w) = true ->
  (answer w e "TEST_MODE_ON" = Some response ->
   fst (enable_test_mode w e user)
   = respond true "Test mode enabled - using mock sensor values" None
   /\ logged_result (snd (enable_test_mode w e user)) = Some "SUCCESS")
  /\ (answer w e "TEST_MODE_OFF" = Some response ->
      fst (disable_test_mode w e user)
      = respond true "Test mode disabled - using real sensor values" None
      /\ logged_result (snd (disable_test_mode w e user)) = Some "SUCCESS").
Proof.
  intros Hc. split; intros Ha; pose proof (send_command_nonblank _ _ _ _ Ha) as Hn;
    apply String.eqb_neq in Hn; open_op; rewrite Hc, Ha; cbn [negb truthy];
    rewrite Hn; cbn [negb fst snd]; now rewrite log_operation_result.
Qed.

(** An old firmware that does not know the command. *)
Lemma test_mode_any_answer_witness :
  fst (enable_test_mode sample_world
         (sample_env [SerialManager.Line "ERROR: Unknown command"]) operator)
  = respond true "Test mode enabled - using mock sensor values" None.
Proof.
  apply (test_mode_any_answer sample_world
           (sample_env [SerialManager.Line "ERROR: Unknown command"]) operator
           "ERROR: Unknown command" eq_refl).
  reflexivity.
Defined.

(** X24. Once the device has answered a RESET_EMERGENCY command, an
    answer that contains "reset successfully" in any letter case, or
    "EVENT", is logged as SUCCESS; any other answer is logged as UNKNOWN
    and returned as the message of a failure. No valve state is
    reported either way. *)
Theorem reset_emergency_classification (w : world) (e : env) (user : User)
    (response : string) :
  SerialManager.is_connected (serial_manager w) = true ->
  answer w e "RESET_EMERGENCY" = Some response ->
  (occurs_in_nocase "reset successfully" response
   \/ occurs_in "EVENT" response ->
   fst (Valve.reset_emergency w e user)
   = respond true "Emergency mode reset successfully" None
   /\ logged_result (snd (Valve.reset_emergency w e user)) = Some "SUCCESS")
  /\ (~ occurs_in_nocase "reset successfully" response ->
      ~ occurs_in "EVENT" response ->
      fst (Valve.reset_emergency w e user) = respond false response None
      /\ logged_result (snd (Valve.reset_emergency w e user))
         = Some "UNKNOWN").
Proof.
  intros Hc Ha. pose proof (send_command_nonblank _ _ _ _ Ha) as Hn.
  apply String.eqb_neq in Hn. unfold Valve.reset_emergency.
  rewrite Hc, send_eq, Ha, Hn. cbn [negb]. split.
  - intros H.
    assert (contains "reset successfully" (lower response)
            || contains "EVENT" response = true) as ->.
    { apply orb_true_iff. destruct H as [H|H]; [left|right].
      - now apply (contains_lower_nocase "reset successfully").
      - now apply contains_occurs. }
    cbn [fst snd]. now rewrite log_operation_result.
  - intros N1 N2. apply (contains_nocase_false "reset successfully") in N1.
    change (lower "reset successfully") with "reset successfully" in N1.
    apply contains_false in N2. rewrite N1, N2. cbn [orb fst snd].
    now rewrite log_operation_result.
Qed.

(** The event line of the firmware. *)
Lemma reset_emergency_classification_witness :
  logged_result
    (snd (Valve.reset_emergency sample_world
            (sample_env [SerialManager.Line "EVENT: Emergency reset"])
            operator))
  = Some "SUCCESS".
Proof.
  destruct (reset_emergency_classification sample_world
              (sample_env [SerialManager.Line "EVENT: Emergency reset"])
              operator "EVENT: Emergency reset" eq_refl eq_refl) as [Hok _].
  apply Hok. right. exists "", ": Emergency reset". reflexivity.
Defined.

(** X25. [log_operation] publishes what it logs: besides the entry it
    adds to the log, every registered socket that accepts the message
    receives one valve event carrying the same command, user, result
    and message, the sockets that refuse it are unregistered, and the
    serial manager and the alerts are not touched. *)
Theorem log_operation_publishes (w : world) (e : env) (command : string)
    (user : User) (result message : string) :
  let w' := log_operation w e command user result message in
  let event := valve_event_message
                 (valve_event e command user result message) in
  logged_result w' = Some result
  /\ serial_manager w' = serial_manager w
  /\ Valve.system_alerts w' = Valve.system_alerts w
  /\ active_connections (Valve.ws_manager w')
     = active_connections (Valve.ws_manager w)
       ∖ failing (Valve.send_json e) (Valve.ws_manager w) event
  /\ (exists sent,
        Valve.delivered w' = (Valve.delivered w ++ sent)%list
        /\ NoDup sent
        /\ forall c m, (c, m) ∈ sent
                       <-> c ∈ active_connections (Valve.ws_manager w)
                           /\ Valve.send_json e c event = true /\ m = event)
  /\ valve_event e command user result message !! "command"
     = Some (PStr command)
  /\ valve_event e command user result message !! "user"
     = Some (PStr (username user))
  /\ valve_event e command user result message !! "result"
     = Some (PStr result)
  /\ valve_event e command user result message !! "message"
     = Some (PStr message).
Proof.
  cbv zeta. split; [apply log_operation_result|].
  split; [apply log_operation_serial|]. split; [apply log_operation_alerts|].
  unfold log_operation, broadcast_valve_event.
  fold (valve_event_message (valve_event e command user result message)).
  rewrite broadcast_eq. cbn [Valve.ws_manager Valve.delivered active_connections].
  split; [reflexivity|]. split.
  - eexists. split; [reflexivity|]. split.
    + apply NoDup_fmap_2; [intros c1 c2 H; now inversion H|].
      apply NoDup_filter, NoDup_elements.
    + intros c m. rewrite list_elem_of_fmap. split.
      * intros (c' & Heq & H). inversion Heq; subst.
        apply list_elem_of_filter in H as [Hok H].
        apply elem_of_elements in H. auto.
      * intros (Hc & Hok & ->). exists c. split; [reflexivity|].
        apply list_elem_of_filter. split; [exact Hok|].
        now apply elem_of_elements.
  - unfold valve_event. repeat split; now simplify_map_eq.
Qed.

(** ** Telemetry handler *)







(** X28. What [handle_telemetry] drops. A value that is not a record
    changes nothing at all. A record whose row the database refuses at
    the commit changes nothing either, whatever its metrics: nothing is
    stored, no alert is raised and nothing is broadcast. A record that
    is stored and on which the rules engine raises (a metric that is not
    a number) raises no alert and is not broadcast: no message is sent
    and no socket is unregistered. *)
Theorem handle_telemetry_dropped (w : Main.world) (e : Main.env)
    (raw_line : string) :
  (forall data, (forall d, data <> PDict d) ->
                Main.handle_telemetry w e data raw_line = w)
  /\ (forall telemetry_data,
        Main.commits e (Main.telemetry_row e telemetry_data raw_line) = false ->
        Main.handle_telemetry w e (PDict telemetry_data) raw_line = w)
  /\ (forall telemetry_data,
        Main.commits e (Main.telemetry_row e telemetry_data raw_line) = true ->
        ~ metrics_numeric telemetry_data ->
        let w' := Main.handle_telemetry w e (PDict telemetry_data) raw_line in
        Main.telemetry w'
        = (Main.telemetry w
           ++ [Main.telemetry_row e telemetry_data raw_line])%list
        /\ Main.system_alerts w' = Main.system_alerts w
        /\ Main.delivered w' = Main.delivered w
        /\ Main.ws_manager w' = Main.ws_manager w).
Proof.
  split; [|split].
  - intros data Hd. destruct data as [|n|s0|l|d]; try reflexivity.
    now destruct (Hd d).
  - intros d Hc. unfold Main.handle_telemetry. now rewrite Hc.
  - intros d Hc Hn. cbv zeta. unfold Main.handle_telemetry. rewrite Hc.
    cbn [negb].
    destruct (validate_telemetry_cases (Main.fmt e) (Main.rules_engine e) d)
      as [(p1 & p2 & c_src & c_dst & H1 & H2 & H3 & H4) | [_ ->]].
    + exfalso. apply Hn. unfold metrics_numeric, numeric.
      rewrite H1, H2, H3, H4. eauto 10.
    + repeat split.
Qed.
